(** * Verification of the Flask backend [api/app.py]

    The module is glue code: it reads one credential from the environment,
    builds two prompts by string concatenation, calls the generative model
    once per request and wraps the answer in JSON.  The development embeds
    the module function by function:

    - a Python [str] is kept as its UTF-8 bytes ([string]); [str.strip]
      removes the encodings of the code points for which [str.isspace] holds;
    - values decoded from JSON are the inductive [pyval];
    - the generative model is a parameter ([generate_content]); the calls it
      receives are logged, and exceptions are values of an error monad. *)

From Stdlib Require Import ZArith NArith Ascii String List Lia.
From Stdlib Require Import DecimalString.
From Stdlib Require Import Floats.PrimFloat.
From stdpp Require Import base gmap strings.

Local Open Scope Z_scope.

(** ** Python strings *)

Module PyStr.

(** UTF-8 encoding of a code point of the Basic Multilingual Plane. *)
Definition utf8_encode (cp : N) : list ascii :=
  if (cp <? 0x80)%N then [ascii_of_N cp]
  else if (cp <? 0x800)%N then
    [ascii_of_N (0xC0 + cp / 64); ascii_of_N (0x80 + cp mod 64)]
  else
    [ascii_of_N (0xE0 + cp / 4096); ascii_of_N (0x80 + (cp / 64) mod 64);
     ascii_of_N (0x80 + cp mod 64)].

(** The code points that [str.isspace] accepts, which are the ones
    [str.strip()] removes. *)
Definition whitespace_code_points : list N :=
  [0x09; 0x0A; 0x0B; 0x0C; 0x0D; 0x1C; 0x1D; 0x1E; 0x1F; 0x20; 0x85; 0xA0;
   0x1680; 0x2000; 0x2001; 0x2002; 0x2003; 0x2004; 0x2005; 0x2006; 0x2007;
   0x2008; 0x2009; 0x200A; 0x2028; 0x2029; 0x202F; 0x205F; 0x3000]%N.

Definition whitespace : list (list ascii) :=
  map utf8_encode whitespace_code_points.

(** [drop_prefix p s] is [Some r] when [s = p ++ r]. *)
Fixpoint drop_prefix (p s : list ascii) : option (list ascii) :=
  match p, s with
  | [], _ => Some s
  | a :: p', b :: s' => if Ascii.eqb a b then drop_prefix p' s' else None
  | _ :: _, [] => None
  end.

(** Removes the first pattern of [ws] that starts [s]. *)
Fixpoint drop_one (ws : list (list ascii)) (s : list ascii)
  : option (list ascii) :=
  match ws with
  | [] => None
  | w :: ws' =>
      match drop_prefix w s with
      | Some r => Some r
      | None => drop_one ws' s
      end
  end.

Fixpoint lstrip_fuel (ws : list (list ascii)) (fuel : nat) (s : list ascii)
  : list ascii :=
  match fuel with
  | O => s
  | S n =>
      match drop_one ws s with
      | Some r => lstrip_fuel ws n r
      | None => s
      end
  end.

Definition lstrip_with (ws : list (list ascii)) (s : list ascii) : list ascii :=
  lstrip_fuel ws (length s) s.

Definition lstrip_bytes (s : list ascii) : list ascii :=
  lstrip_with whitespace s.

(** Trailing whitespace: the same scan on the reversed bytes. *)
Definition rstrip_bytes (s : list ascii) : list ascii :=
  rev (lstrip_with (map (@rev ascii) whitespace) (rev s)).

Definition strip_bytes (s : list ascii) : list ascii :=
  rstrip_bytes (lstrip_bytes s).

(** [s.strip()] *)
Definition strip (s : string) : string :=
  string_of_list_ascii (strip_bytes (list_ascii_of_string s)).

(** [needle in hay] *)
Definition contains (needle hay : string) : Prop :=
  exists pre post, hay = pre +:+ needle +:+ post.

Fixpoint starts_with (p s : string) : bool :=
  match p, s with
  | EmptyString, _ => true
  | String a p', String b s' => Ascii.eqb a b && starts_with p' s'
  | String _ _, EmptyString => false
  end.

Fixpoint containsb (needle hay : string) : bool :=
  starts_with needle hay ||
  match hay with
  | EmptyString => false
  | String _ hay' => containsb needle hay'
  end.

(** [s.split("\n")] *)
Fixpoint split_nl (s : string) : list string :=
  match s with
  | EmptyString => [EmptyString]
  | String c s' =>
      if Ascii.eqb c "010" then EmptyString :: split_nl s'
      else
        match split_nl s' with
        | l :: ls => String c l :: ls
        | [] => [String c EmptyString]
        end
  end.

(** ["\n" in s] *)
Fixpoint has_newline (s : string) : bool :=
  match s with
  | EmptyString => false
  | String c s' => Ascii.eqb c "010" || has_newline s'
  end.

(** [str(i)] for an [int] *)
Definition str_int (z : Z) : string :=
  NilZero.string_of_int (Z.to_int z).

End PyStr.

Import PyStr.

(** ** Values decoded from JSON, and the Python operations the module
       applies to them *)

#[warnings="-register-all"]
Inductive pyval : Type :=
| PNone
| PBool (b : bool)
| PInt (z : Z)
| PFloat (f : float)
| PStr (s : string)
| PList (l : list pyval)
| PDict (d : list (string * pyval)).

(** [bool(v)]: what [not v] and [v or w] test. *)
Definition truthy (v : pyval) : bool :=
  match v with
  | PNone => false
  | PBool b => b
  | PInt z => negb (z =? 0)
  | PFloat f => negb (PrimFloat.eqb f 0)
  | PStr s => negb (String.eqb s "")
  | PList l => match l with [] => false | _ :: _ => true end
  | PDict d => match d with [] => false | _ :: _ => true end
  end.

(** [a or b] *)
Definition py_or (a b : pyval) : pyval := if truthy a then a else b.

Definition isinstance_list (v : pyval) : bool :=
  match v with PList _ => true | _ => false end.

(** The elements of a value known to be a list. *)
Definition list_items (v : pyval) : list pyval :=
  match v with PList l => l | _ => [] end.

Definition type_name (v : pyval) : string :=
  match v with
  | PNone => "NoneType"
  | PBool _ => "bool"
  | PInt _ => "int"
  | PFloat _ => "float"
  | PStr _ => "str"
  | PList _ => "list"
  | PDict _ => "dict"
  end.

(** Exceptions.  The module only ever distinguishes [AttributeError] (which
    the three-argument [getattr] swallows) from the rest; every value of
    [exn] is an instance of [Exception], the class the routes catch. *)
Inductive exn_class : Type :=
| AttributeError
| RuntimeError
| OtherException (name : string).

Record exn : Type := mkExn { exn_kind : exn_class; exn_str : string }.

Definition is_attribute_error (e : exn) : bool :=
  match exn_kind e with AttributeError => true | _ => false end.

(** The error raised by [v.attr] when the type of [v] has no such attribute. *)
Definition no_attribute (v : pyval) (attr : string) : exn :=
  mkExn AttributeError
    ("'" +:+ type_name v +:+ "' object has no attribute '" +:+ attr +:+ "'").

(** A dict keeps one binding per key; when the decoded object repeated a
    key, the last occurrence is the binding. *)
Definition dict_lookup (key : string) (d : list (string * pyval))
  : option pyval :=
  fold_left
    (fun acc kv => if String.eqb (fst kv) key then Some (snd kv) else acc)
    d None.

(** [obj.get(key, default)] *)
Definition py_get (obj : pyval) (key : string) (default : pyval)
  : exn + pyval :=
  match obj with
  | PDict d =>
      inr (match dict_lookup key d with Some v => v | None => default end)
  | _ => inl (no_attribute obj "get")
  end.

(** [v.strip()] *)
Definition py_strip (v : pyval) : exn + string :=
  match v with
  | PStr s => inr (strip s)
  | _ => inl (no_attribute v "strip")
  end.

(** The object returned by the model; only its [text] attribute is read.
    In the SDK [text] is a property, so reading it can itself raise. *)
Inductive attribute : Type :=
| AttrMissing
| AttrRaises (e : exn)
| AttrValue (v : pyval).

Record generation : Type := mkGeneration { text : attribute }.

(** [getattr(resp, "text", default)] *)
Definition getattr_text (resp : generation) (default : pyval) : exn + pyval :=
  match text resp with
  | AttrMissing => inr default
  | AttrRaises e => if is_attribute_error e then inr default else inl e
  | AttrValue v => inr v
  end.

(** ** Effects: the log of upstream calls and exceptions *)

(** A computation reads and extends the list of prompts sent to the model so
    far and ends with a value or an exception. *)
Definition M (A : Type) : Type := list string -> (exn + A) * list string.

Definition ret {A} (a : A) : M A := fun log => (inr a, log).

Definition raise {A} (e : exn) : M A := fun log => (inl e, log).

Definition bind {A B} (m : M A) (k : A -> M B) : M B :=
  fun log =>
    match m log with
    | (inr a, log') => k a log'
    | (inl e, log') => (inl e, log')
    end.

Definition lift {A} (r : exn + A) : M A :=
  match r with inr a => ret a | inl e => raise e end.

(** [try: body  except Exception as e: handler e] *)
Definition try_except {A} (body : M A) (handler : exn -> M A) : M A :=
  fun log =>
    match body log with
    | (inr a, log') => (inr a, log')
    | (inl e, log') => handler e log'
    end.

Notation "'let*' x ':=' m 'in' k" := (bind m (fun x => k))
  (at level 10, x name, m at level 100, k at level 200).

(** ** Startup: section 1 and 2 of the module *)

Definition nl : string := String "010"%char "".

Definition DOMAIN_CONTEXT : string :=
  nl +:+
  "Você é um assistente técnico especializado em:" +:+ nl +:+
  "- JavaScript e TypeScript (DOM, eventos, Promises, async/await, Fetch/AJAX, módulos, boas práticas)" +:+ nl +:+
  "- C# e .NET (ASP.NET Core, Web API, EF Core, LINQ, async/await, injeção de dependência, DTOs vs Domain Models)" +:+ nl +:+
  nl +:+
  "Regras:" +:+ nl +:+
  "- Responda SEMPRE em português do Brasil." +:+ nl +:+
  "- Seja objetivo e didático. Dê exemplos curtos quando útil." +:+ nl +:+
  "- Se a pergunta fugir deste domínio, diga brevemente que o escopo é JS/TS/AJAX e C#/.NET e ofereça redirecionar." +:+ nl +:+
  "- Onde couber, cite rapidamente boas práticas (tratamento de erros, camadas, validação, performance)." +:+ nl.

Definition MODEL_NAME : string := "gemini-2.0-flash".

#[warnings="-inexact-float"]
Definition GENERATION_CONFIG : pyval :=
  PDict [("temperature", PFloat 0.4); ("top_p", PFloat 0.9);
         ("max_output_tokens", PInt 800)].

(** What the module holds once it has been imported. *)
Record module_state : Type := mkModule {
  API_KEY : pyval;
  model_name : string;
  system_instruction : string;
  generation_config : pyval
}.

(** [load_dotenv(find_dotenv(), override=True)]: the variables of the [.env]
    file replace those of the process environment. *)
Definition load_dotenv (dotenv environ : gmap string string)
  : gmap string string :=
  dotenv ∪ environ.

(** [os.getenv(name)] *)
Definition getenv (environ : gmap string string) (name : string) : pyval :=
  match environ !! name with
  | Some v => PStr v
  | None => PNone
  end.

Definition missing_key_error : exn :=
  mkExn RuntimeError
    "Defina GEMINI_API_KEY nas variáveis de ambiente (.env local ou Vercel Settings).".

(** Lines 23 to 62: the module body up to the creation of the model. *)
Definition startup (dotenv environ : gmap string string)
  : exn + module_state :=
  let environ := load_dotenv dotenv environ in
  let key := getenv environ "GEMINI_API_KEY" in
  if negb (truthy key) then inl missing_key_error
  else inr (mkModule key MODEL_NAME DOMAIN_CONTEXT GENERATION_CONFIG).

(** ** HTTP requests and responses *)

Record request : Type := mkRequest {
  method : string;
  path : string;
  (** the decoded JSON body; [None] when there is no body, when it does not
      parse or when the content type is not JSON *)
  json_body : option pyval
}.

(** [request.get_json(silent=True)]: every failure gives [None]. *)
Definition get_json_silent (req : request) : pyval :=
  match json_body req with
  | Some v => v
  | None => PNone
  end.

(** What a view returns: [jsonify(payload), status]. *)
Record response : Type := mkResponse { status : Z; payload : pyval }.

Definition jsonify (payload : pyval) : response := mkResponse 200 payload.

Definition with_status (r : response) (code : Z) : response :=
  mkResponse code (payload r).

(** ** Sections 4 and 6 of the module: helpers and API routes *)

Module Api.

Section App.

(** [model.generate_content]: the answer of the external service to a
    prompt, given the prompts it has received before.  It either raises or
    returns a response object. *)
Variable generate_content : list string -> string -> exn + generation.

(** [str()] of floats, lists and dicts (the interpreter's [repr]). *)
Variable builtin_repr : pyval -> string.

(** What an f-string interpolates for [{v}]. *)
Definition py_format (v : pyval) : string :=
  match v with
  | PStr s => s
  | PNone => "None"
  | PBool true => "True"
  | PBool false => "False"
  | PInt z => str_int z
  | PFloat _ | PList _ | PDict _ => builtin_repr v
  end.

Definition model_generate_content (prompt : string) : M generation :=
  fun log => (generate_content log prompt, log ++ [prompt]).

(** The fixed part of the prompt of [generate_markdown_answer]. *)
Definition ANSWER_INSTRUCTIONS : string :=
  "Responda no contexto acima **em Markdown**. " +:+
  "Use títulos curtos (##), listas quando fizer sentido e blocos de código com a linguagem quando houver trechos de código. " +:+
  nl +:+ "Pergunta do usuário: ".

Definition answer_prompt (question : string) : string :=
  ANSWER_INSTRUCTIONS +:+ question.

(** [(getattr(resp, "text", "") or "").strip()], lines 93 and 115. *)
Definition stripped_text (resp : generation) : exn + string :=
  match getattr_text resp (PStr "") with
  | inr t => py_strip (py_or t (PStr ""))
  | inl e => inl e
  end.

(** [s or fallback] for a string [s] *)
Definition or_else (s fallback : string) : string :=
  if String.eqb s "" then fallback else s.

Definition generate_markdown_answer (question : string) : M string :=
  let prompt := answer_prompt question in
  let* resp := model_generate_content prompt in
  let* answer := lift (stripped_text resp) in
  ret (or_else answer "Não consegui gerar resposta.").

(** The initial value of [linhas]. *)
Definition SUMMARY_INSTRUCTIONS : list string :=
  [ "Resuma de forma objetiva as interações abaixo.";
    "• Traga ATÉ 8 tópicos (bullets).";
    "• Termine com 'Próximas ações:' e 3 itens.";
    "";
    "Conteúdo para resumir:" ].

(** The loop [for i, item in enumerate(qa, start=1)], entered at index [i]
    with the lines appended so far. *)
Fixpoint append_items (i : Z) (qa : list pyval) (linhas : list string)
  : exn + list string :=
  match qa with
  | [] => inr linhas
  | item :: rest =>
      match py_get (py_or item (PDict [])) "q" (PStr "") with
      | inl e => inl e
      | inr q =>
          match py_get (py_or item (PDict [])) "a" (PStr "") with
          | inl e => inl e
          | inr a =>
              append_items (i + 1) rest
                (linhas ++
                 ["- Pergunta " +:+ str_int i +:+ ": " +:+ py_format q;
                  "- Resposta " +:+ str_int i +:+ ": " +:+ py_format a])
          end
      end
  end.

(** The argument of [generate_content] in [summarize_markdown]. *)
Definition summary_prompt (qa : list pyval) : exn + string :=
  match append_items 1 qa SUMMARY_INSTRUCTIONS with
  | inr linhas => inr (String.concat nl linhas)
  | inl e => inl e
  end.

Definition summarize_markdown (qa : list pyval) : M string :=
  let* prompt := lift (summary_prompt qa) in
  let* resp := model_generate_content prompt in
  let* resumo := lift (stripped_text resp) in
  ret (or_else resumo "Não foi possível gerar o resumo.").

Definition health : M response :=
  ret (jsonify (PDict [("ok", PBool true)])).

Definition ask (req : request) : M response :=
  let data := py_or (get_json_silent req) (PDict []) in
  let* v := lift (py_get data "question" PNone) in
  let* question := lift (py_strip (py_or v (PStr ""))) in
  if String.eqb question "" then
    ret (with_status
           (jsonify (PDict [("error", PStr "Campo 'question' é obrigatório")]))
           400)
  else
    try_except
      (let* answer := generate_markdown_answer question in
       ret (jsonify (PDict [("answer", PStr answer)])))
      (fun e =>
         ret (with_status
                (jsonify
                   (PDict [("error",
                            PStr ("Erro ao gerar resposta: " +:+ exn_str e))]))
                500)).

Definition summarize (req : request) : M response :=
  let data := py_or (get_json_silent req) (PDict []) in
  let* qa := lift (py_get data "qa" PNone) in
  if negb (truthy qa) || negb (isinstance_list qa) then
    ret (with_status
           (jsonify (PDict [("error", PStr "Campo 'qa' deve ser uma lista")]))
           400)
  else
    try_except
      (let* summary := summarize_markdown (list_items qa) in
       ret (jsonify (PDict [("summary", PStr summary)])))
      (fun e =>
         ret (with_status
                (jsonify
                   (PDict [("error",
                            PStr ("Erro ao gerar resumo: " +:+ exn_str e))]))
                500)).

(** The API routes registered with [@app.route]. *)
Definition view_of (req : request) : option (M response) :=
  if String.eqb (path req) "/api/health" && String.eqb (method req) "GET"
  then Some health
  else if String.eqb (path req) "/api/ask" && String.eqb (method req) "POST"
  then Some (ask req)
  else if String.eqb (path req) "/api/summarize"
          && String.eqb (method req) "POST"
  then Some (summarize req)
  else None.

(** What the client of one request gets. *)
Inductive reply : Type :=
| Replied (r : response)
    (** the view returned *)
| InternalServerError (e : exn)
    (** an exception left the view: Flask answers with its own 500 page *)
| OtherRoute.
    (** the request reaches none of the three views: the front end and the
        static files, Flask's own HEAD and OPTIONS, its 404 and 405 *)

Definition dispatch (req : request) (log : list string)
  : reply * list string :=
  match view_of req with
  | None => (OtherRoute, log)
  | Some view =>
      match view log with
      | (inr r, log') => (Replied r, log')
      | (inl e, log') => (InternalServerError e, log')
      end
  end.

(** The requests of a process, one after the other. *)
Fixpoint serve (reqs : list request) (log : list string)
  : list reply * list string :=
  match reqs with
  | [] => ([], log)
  | req :: rest =>
      let (r, log') := dispatch req log in
      let (rs, log'') := serve rest log' in
      (r :: rs, log'')
  end.

(** The life of a process: import the module, then serve. *)
Inductive process : Type :=
| Aborted (e : exn)
| Served (replies : list reply).

Definition run (dotenv environ : gmap string string) (reqs : list request)
  (log : list string) : process * list string :=
  match startup dotenv environ with
  | inl e => (Aborted e, log)
  | inr _ =>
      let (rs, log') := serve reqs log in
      (Served rs, log')
  end.

End App.

End Api.

Import Api.

(** ** Sample surroundings for the examples

    A model that answers every prompt with the same text, one that is out of
    service, and a [repr] for the examples, which interpolate strings only. *)
Definition upstream_fixed (answer : string)
  : list string -> string -> exn + generation :=
  fun _ _ => inr (mkGeneration (AttrValue (PStr answer))).

Definition upstream_down (e : exn)
  : list string -> string -> exn + generation :=
  fun _ _ => inl e.

Definition repr_unused : pyval -> string := fun _ => "".

(** [item] is an object [{ q: str, a: str }] with the given fields. *)
Definition is_pair (item : pyval) (q a : string) : Prop :=
  exists d,
    item = PDict d
    /\ dict_lookup "q" d = Some (PStr q)
    /\ dict_lookup "a" d = Some (PStr a).

(** The enumerated lines as the specification words them: for each pair, in
    order and numbered from [i], a question line then an answer line. *)
Fixpoint item_lines (i : Z) (pairs : list (string * string)) : list string :=
  match pairs with
  | [] => []
  | (q, a) :: rest =>
      ("- Pergunta " +:+ str_int i +:+ ": " +:+ q)
      :: ("- Resposta " +:+ str_int i +:+ ": " +:+ a)
      :: item_lines (i + 1) rest
  end.

(** A model that returns the same response object to every prompt. *)
Definition upstream_returns (resp : generation)
  : list string -> string -> exn + generation :=
  fun _ _ => inr resp.

Definition isinstance_dict (v : pyval) : bool :=
  match v with PDict _ => true | _ => false end.

Definition isinstance_str (v : pyval) : bool :=
  match v with PStr _ => true | _ => false end.

(** What [(item or {}).get(key, "")] gives for an item that is an object or
    falsy. *)
Definition item_field (item : pyval) (key : string) : pyval :=
  match item with
  | PDict d =>
      match dict_lookup key d with
      | Some v => v
      | None => PStr ""
      end
  | _ => PStr ""
  end.

Definition post (p : string) (body : option pyval) : request :=
  mkRequest "POST" p body.

Definition bad_request (message : string) : response :=
  mkResponse 400 (PDict [("error", PStr message)]).

Definition server_error (message : string) : response :=
  mkResponse 500 (PDict [("error", PStr message)]).

(** * Properties *)

(** ** Facts about [strip], [contains] and the lines of a string *)

Section StringFacts.

Lemma drop_prefix_Some (p s r : list ascii) :
  drop_prefix p s = Some r <-> s = p ++ r.
Proof.
  revert s; induction p as [|a p IH]; intros s; simpl.
  - split; congruence.
  - destruct s as [|b s]; [split; discriminate|].
    destruct (Ascii.eqb_spec a b) as [->|Hne].
    + rewrite IH. split; congruence.
    + split; [discriminate | congruence].
Qed.

Lemma drop_one_Some (ws : list (list ascii)) (s r : list ascii) :
  drop_one ws s = Some r -> exists w, In w ws /\ s = w ++ r.
Proof.
  induction ws as [|w ws IH]; simpl; [discriminate|].
  destruct (drop_prefix w s) as [r'|] eqn:E.
  - intros [= ->]. exists w. split; [now left|]. now apply drop_prefix_Some.
  - intros H. destruct (IH H) as (w' & Hin & Hs). exists w'. auto.
Qed.

Lemma drop_one_None (ws : list (list ascii)) (s : list ascii) :
  drop_one ws s = None -> forall w r, In w ws -> s <> w ++ r.
Proof.
  induction ws as [|w ws IH]; simpl; [intros _ ? ? []|].
  destruct (drop_prefix w s) as [r'|] eqn:E; [discriminate|].
  intros H w' r [<-|Hin] Hs.
  - apply drop_prefix_Some in Hs. congruence.
  - exact (IH H w' r Hin Hs).
Qed.

Lemma lstrip_fuel_suffix (ws : list (list ascii)) (n : nat) (s : list ascii) :
  exists pre, s = pre ++ lstrip_fuel ws n s.
Proof.
  revert s; induction n as [|n IH]; intros s; simpl.
  - now exists [].
  - destruct (drop_one ws s) as [r|] eqn:E; [|now exists []].
    destruct (drop_one_Some _ _ _ E) as (w & _ & ->).
    destruct (IH r) as (pre & Hr).
    exists (w ++ pre). rewrite <- app_assoc. now rewrite <- Hr.
Qed.

Lemma lstrip_fuel_done (ws : list (list ascii)) :
  Forall (fun w => w <> []) ws ->
  forall (n : nat) (s : list ascii),
    (length s <= n)%nat -> drop_one ws (lstrip_fuel ws n s) = None.
Proof.
  intros Hne. induction n as [|n IH]; intros s Hlen; simpl.
  - destruct s; [|simpl in Hlen; lia].
    destruct (drop_one ws []) as [r|] eqn:E; [|reflexivity].
    destruct (drop_one_Some _ _ _ E) as (w & Hin & Hs).
    rewrite List.Forall_forall in Hne. specialize (Hne w Hin).
    destruct w; [congruence | discriminate].
  - destruct (drop_one ws s) as [r|] eqn:E; [|exact E].
    apply IH.
    destruct (drop_one_Some _ _ _ E) as (w & Hin & ->).
    rewrite List.Forall_forall in Hne. specialize (Hne w Hin).
    destruct w; [congruence|]. simpl in Hlen. rewrite length_app in Hlen. lia.
Qed.

Lemma lstrip_with_fixed (ws : list (list ascii)) (s : list ascii) :
  drop_one ws s = None -> lstrip_with ws s = s.
Proof.
  unfold lstrip_with. intros H. destruct (length s); simpl; [reflexivity|].
  now rewrite H.
Qed.

Lemma whitespace_nonempty : Forall (fun w : list ascii => w <> []) whitespace.
Proof. vm_compute. repeat constructor; discriminate. Qed.

Lemma whitespace_rev_nonempty :
  Forall (fun w : list ascii => w <> []) (map (@rev ascii) whitespace).
Proof. vm_compute. repeat constructor; discriminate. Qed.

(** The result of [strip_bytes] starts and ends with no whitespace. *)
Lemma strip_bytes_fixed (s : list ascii) :
  strip_bytes (strip_bytes s) = strip_bytes s.
Proof.
  unfold strip_bytes.
  set (u := lstrip_bytes s).
  assert (Hu : drop_one whitespace u = None).
  { apply lstrip_fuel_done; [apply whitespace_nonempty | reflexivity]. }
  set (wr := map (@rev ascii) whitespace).
  set (v := lstrip_with wr (rev u)).
  assert (Hv : drop_one wr v = None).
  { apply lstrip_fuel_done; [apply whitespace_rev_nonempty | reflexivity]. }
  assert (Ht : rstrip_bytes u = rev v) by reflexivity.
  rewrite Ht.
  assert (Hl : lstrip_bytes (rev v) = rev v).
  { apply lstrip_with_fixed.
    destruct (drop_one whitespace (rev v)) as [r|] eqn:E; [|reflexivity].
    exfalso. destruct (drop_one_Some _ _ _ E) as (w & Hin & Hw).
    destruct (lstrip_fuel_suffix wr (length (rev u)) (rev u)) as (pre & Hpre).
    fold (lstrip_with wr (rev u)) in Hpre. fold v in Hpre.
    apply (drop_one_None _ _ Hu w (r ++ rev pre) Hin).
    rewrite <- (rev_involutive u), Hpre, rev_app_distr, Hw.
    now rewrite <- app_assoc. }
  rewrite Hl. unfold rstrip_bytes. rewrite rev_involutive.
  fold wr. now rewrite (lstrip_with_fixed wr v Hv).
Qed.

Lemma strip_idempotent (s : string) : strip (strip s) = strip s.
Proof.
  unfold strip. rewrite list_ascii_of_string_of_list_ascii.
  now rewrite strip_bytes_fixed.
Qed.

Example strip_ascii :
  strip ("  ola  mundo " +:+ nl +:+ "   ") = "ola  mundo"
  /\ strip "   " = "" /\ strip "" = "".
Proof. now vm_compute. Qed.

(** A no-break space (U+00A0) in front and an ideographic space (U+3000)
    behind are whitespace too. *)
Example strip_unicode :
  strip (string_of_list_ascii (utf8_encode 0xA0) +:+ "olá"
         +:+ string_of_list_ascii (utf8_encode 0x3000))
  = "olá".
Proof. now vm_compute. Qed.

Lemma append_nil_l (t : string) : "" +:+ t = t.
Proof. reflexivity. Qed.

Lemma append_cons (c : ascii) (s t : string) :
  String c s +:+ t = String c (s +:+ t).
Proof. reflexivity. Qed.

Lemma starts_with_spec (p s : string) :
  starts_with p s = true <-> exists post, s = p +:+ post.
Proof.
  revert s; induction p as [|a p IH]; intros s; simpl.
  - split; [intros _; now exists s | reflexivity].
  - destruct s as [|b s].
    + split; [discriminate | intros [post H]; discriminate].
    + rewrite andb_true_iff, IH. split.
      * intros [Hab [post ->]]. apply Ascii.eqb_eq in Hab. subst b.
        now exists post.
      * intros [post H]. rewrite append_cons in H. injection H as -> ->.
        split; [apply Ascii.eqb_refl | now exists post].
Qed.

Lemma containsb_spec (needle hay : string) :
  containsb needle hay = true <-> contains needle hay.
Proof.
  unfold contains. induction hay as [|c hay IH]; simpl.
  - rewrite orb_false_r, starts_with_spec. split.
    + intros [post H]. now exists "", post.
    + intros (pre & post & H). destruct pre as [|? ?]; [|discriminate].
      now exists post.
  - rewrite orb_true_iff, starts_with_spec, IH. split.
    + intros [[post H] | (pre & post & H)].
      * now exists "", post.
      * exists (String c pre), post. rewrite append_cons. now f_equal.
    + intros (pre & post & H). destruct pre as [|c' pre].
      * left. now exists post.
      * right. rewrite append_cons in H. injection H as _ H.
        now exists pre, post.
Qed.

Lemma contains_suffix (pre s : string) : contains s (pre +:+ s).
Proof.
  exists pre, "". f_equal.
  induction s as [|c s IH]; [reflexivity|]. rewrite append_cons. now f_equal.
Qed.

Lemma contains_prefix (s post : string) : contains s (s +:+ post).
Proof. now exists "", post. Qed.

Lemma has_newline_append (s t : string) :
  has_newline (s +:+ t) = has_newline s || has_newline t.
Proof.
  induction s as [|c s IH]; [reflexivity|].
  rewrite append_cons. simpl. rewrite IH. now rewrite orb_assoc.
Qed.

Lemma uint_no_newline (d : Decimal.uint) :
  has_newline (NilEmpty.string_of_uint d) = false.
Proof. induction d; simpl; auto. Qed.

Lemma str_int_no_newline (z : Z) : has_newline (str_int z) = false.
Proof.
  unfold str_int, NilZero.string_of_int, NilZero.string_of_uint.
  destruct (Z.to_int z) as [d|d]; destruct d; simpl; auto using uint_no_newline.
Qed.

Lemma split_nl_line (x rest : string) :
  has_newline x = false ->
  split_nl (x +:+ nl +:+ rest) = x :: split_nl rest.
Proof.
  induction x as [|c x IH]; intros Hx.
  - reflexivity.
  - simpl in Hx. apply orb_false_iff in Hx as [Hc Hx].
    rewrite append_cons. simpl. rewrite Hc. now rewrite (IH Hx).
Qed.

Lemma split_nl_single (x : string) :
  has_newline x = false -> split_nl x = [x].
Proof.
  induction x as [|c x IH]; intros Hx; [reflexivity|].
  simpl in Hx. apply orb_false_iff in Hx as [Hc Hx].
  simpl. rewrite Hc. now rewrite (IH Hx).
Qed.

(** Splitting the joined lines at the newlines gives the lines back. *)
Lemma split_nl_concat (l : list string) :
  l <> [] ->
  Forall (fun line => has_newline line = false) l ->
  split_nl (String.concat nl l) = l.
Proof.
  induction l as [|x l IH]; intros Hne Hl; [congruence|].
  inversion Hl as [|? ? Hx Hl']; subst.
  destruct l as [|y l].
  - simpl. now apply split_nl_single.
  - change (String.concat nl (x :: y :: l))
      with (x +:+ nl +:+ String.concat nl (y :: l)).
    rewrite (split_nl_line _ _ Hx). f_equal. now apply IH.
Qed.

Lemma append_empty_r (s : string) : s +:+ "" = s.
Proof.
  induction s as [|c s IH]; [reflexivity|]. rewrite append_cons. now f_equal.
Qed.

Lemma append_assoc (s t u : string) : (s +:+ t) +:+ u = s +:+ (t +:+ u).
Proof.
  induction s as [|c s IH]; [reflexivity|].
  rewrite !append_cons. now f_equal.
Qed.

Lemma strip_empty : strip "" = "".
Proof. reflexivity. Qed.

(** Joining lines that extend a non-empty list extends the joined text. *)
Lemma concat_app_prefix (acc items : list string) :
  acc <> [] ->
  exists rest,
    String.concat nl (acc ++ items) = String.concat nl acc +:+ rest.
Proof.
  induction acc as [|x acc IH]; intros Hne; [congruence|].
  destruct acc as [|y acc].
  - destruct items as [|z items].
    + exists "". simpl. now rewrite append_empty_r.
    + now exists (nl +:+ String.concat nl (z :: items)).
  - destruct IH as [rest Hrest]; [discriminate|]. exists rest.
    change (String.concat nl ((x :: y :: acc) ++ items))
      with (x +:+ nl +:+ String.concat nl ((y :: acc) ++ items)).
    change (String.concat nl (x :: y :: acc))
      with (x +:+ nl +:+ String.concat nl (y :: acc)).
    rewrite Hrest. now rewrite !append_assoc.
Qed.

End StringFacts.

(** ** The routes, case by case *)

Section Routes.

Variable generate_content : list string -> string -> exn + generation.
Variable builtin_repr : pyval -> string.

Abbreviation ask := (ask generate_content).
Abbreviation summarize := (summarize generate_content builtin_repr).
Abbreviation summarize_markdown :=
  (summarize_markdown generate_content builtin_repr).
Abbreviation generate_markdown_answer :=
  (generate_markdown_answer generate_content).
Abbreviation dispatch := (dispatch generate_content builtin_repr).
Abbreviation serve := (serve generate_content builtin_repr).
Abbreviation run := (run generate_content builtin_repr).
Abbreviation summary_prompt := (summary_prompt builtin_repr).

Lemma view_of_health (req : request) :
  method req = "GET" -> path req = "/api/health" ->
  view_of generate_content builtin_repr req = Some health.
Proof. unfold view_of. now intros -> ->. Qed.

Lemma view_of_ask (req : request) :
  method req = "POST" -> path req = "/api/ask" ->
  view_of generate_content builtin_repr req = Some (ask req).
Proof. unfold view_of. now intros -> ->. Qed.

Lemma view_of_summarize (req : request) :
  method req = "POST" -> path req = "/api/summarize" ->
  view_of generate_content builtin_repr req = Some (summarize req).
Proof. unfold view_of. now intros -> ->. Qed.

Lemma py_or_dict (d : list (string * pyval)) :
  py_or (PDict d) (PDict []) = PDict d.
Proof. now destruct d. Qed.

Lemma py_or_falsy (v w : pyval) : truthy v = false -> py_or v w = w.
Proof. unfold py_or. now intros ->. Qed.

Lemma string_eqb_empty (s : string) :
  String.eqb s "" = false <-> s <> "".
Proof. apply String.eqb_neq. Qed.

(** [ask] when the body gives no usable question. *)
Lemma ask_without_question (req : request) (log : list string) :
  py_get (py_or (get_json_silent req) (PDict [])) "question" PNone = inr PNone
  \/ (exists s,
        py_get (py_or (get_json_silent req) (PDict [])) "question" PNone
        = inr (PStr s) /\ strip s = "") ->
  ask req log = (inr (bad_request "Campo 'question' é obrigatório"), log).
Proof.
  unfold Api.ask, bind, lift, ret.
  intros [-> | (s & -> & Hs)]; simpl.
  - reflexivity.
  - unfold py_or. simpl. destruct (String.eqb s "") eqn:E; simpl.
    + reflexivity.
    + now rewrite Hs.
Qed.

(** [ask] once the question has passed the test of line 145. *)
Lemma ask_with_question (req : request) (Q : string) (log : list string) :
  py_get (py_or (get_json_silent req) (PDict [])) "question" PNone
  = inr (PStr Q) ->
  strip Q <> "" ->
  ask req log =
  let prompt := answer_prompt (strip Q) in
  match generate_content log prompt with
  | inl e =>
      (inr (server_error ("Erro ao gerar resposta: " +:+ exn_str e)),
       log ++ [prompt])
  | inr resp =>
      match stripped_text resp with
      | inl e =>
          (inr (server_error ("Erro ao gerar resposta: " +:+ exn_str e)),
           log ++ [prompt])
      | inr answer =>
          (inr (jsonify
                  (PDict [("answer",
                           PStr (or_else answer
                                   "Não consegui gerar resposta."))])),
           log ++ [prompt])
      end
  end.
Proof.
  intros Hget HQ.
  assert (HQ' : Q <> "") by (intros ->; now apply HQ).
  unfold Api.ask, bind, lift, ret. rewrite Hget. simpl.
  unfold py_or. simpl.
  apply string_eqb_empty in HQ'. rewrite HQ'. simpl.
  apply string_eqb_empty in HQ. rewrite HQ.
  unfold try_except, Api.generate_markdown_answer, bind,
    model_generate_content, lift, ret, raise.
  destruct (generate_content log (answer_prompt (strip Q))) as [e|resp];
    simpl; [reflexivity|].
  destruct (stripped_text resp) as [e|answer]; reflexivity.
Qed.

(** [summarize] when [qa] is missing, falsy or not a list. *)
Lemma summarize_without_list (req : request) (qa : pyval) (log : list string) :
  py_get (py_or (get_json_silent req) (PDict [])) "qa" PNone = inr qa ->
  truthy qa = false \/ isinstance_list qa = false ->
  summarize req log = (inr (bad_request "Campo 'qa' deve ser uma lista"), log).
Proof.
  intros Hget Hqa. unfold Api.summarize, bind, lift, ret.
  rewrite Hget. simpl.
  destruct Hqa as [-> | ->]; simpl; [reflexivity|].
  now rewrite orb_true_r.
Qed.

(** [summarize] once [qa] has passed the test of line 164. *)
Lemma summarize_with_list (req : request) (item : pyval) (rest : list pyval)
  (log : list string) :
  py_get (py_or (get_json_silent req) (PDict [])) "qa" PNone
  = inr (PList (item :: rest)) ->
  summarize req log =
  match summary_prompt (item :: rest) with
  | inl e =>
      (inr (server_error ("Erro ao gerar resumo: " +:+ exn_str e)), log)
  | inr prompt =>
      match generate_content log prompt with
      | inl e =>
          (inr (server_error ("Erro ao gerar resumo: " +:+ exn_str e)),
           log ++ [prompt])
      | inr resp =>
          match stripped_text resp with
          | inl e =>
              (inr (server_error ("Erro ao gerar resumo: " +:+ exn_str e)),
               log ++ [prompt])
          | inr resumo =>
              (inr (jsonify
                      (PDict [("summary",
                               PStr (or_else resumo
                                       "Não foi possível gerar o resumo."))])),
               log ++ [prompt])
          end
      end
  end.
Proof.
  intros Hget. unfold Api.summarize, bind, lift, ret.
  rewrite Hget. simpl.
  unfold try_except, Api.summarize_markdown, bind,
    model_generate_content, lift, ret, raise.
  destruct (summary_prompt (item :: rest)) as [e|prompt]; [reflexivity|].
  destruct (generate_content log prompt) as [e|resp]; simpl; [reflexivity|].
  destruct (stripped_text resp) as [e|resumo]; reflexivity.
Qed.

(** A JSON object as body is the [data] of the route. *)
Lemma data_of_object (req : request) (d : list (string * pyval)) :
  json_body req = Some (PDict d) ->
  py_or (get_json_silent req) (PDict []) = PDict d.
Proof. unfold get_json_silent. intros ->. apply py_or_dict. Qed.

(** No body, an unreadable body and a falsy JSON value all give [{}]. *)
Lemma data_of_falsy (req : request) :
  json_body req = None
  \/ (exists v, json_body req = Some v /\ truthy v = false) ->
  py_or (get_json_silent req) (PDict []) = PDict [].
Proof.
  unfold get_json_silent.
  intros [-> | (v & -> & Hv)]; [reflexivity | now apply py_or_falsy].
Qed.

Lemma dispatch_view (req : request) (view : M response) (log : list string) :
  view_of generate_content builtin_repr req = Some view ->
  dispatch req log =
  match view log with
  | (inr r, log') => (Replied r, log')
  | (inl e, log') => (InternalServerError e, log')
  end.
Proof. unfold Api.dispatch. now intros ->. Qed.

(** The helpers call the model exactly once, with the prompt they built. *)
Lemma generate_markdown_answer_eq (question : string) (log : list string) :
  generate_markdown_answer question log =
  let prompt := answer_prompt question in
  match generate_content log prompt with
  | inl e => (inl e, log ++ [prompt])
  | inr resp =>
      match stripped_text resp with
      | inl e => (inl e, log ++ [prompt])
      | inr answer =>
          (inr (or_else answer "Não consegui gerar resposta."),
           log ++ [prompt])
      end
  end.
Proof.
  unfold Api.generate_markdown_answer, bind, model_generate_content, lift,
    ret, raise. cbv zeta.
  destruct (generate_content log (answer_prompt question)) as [e|resp];
    [reflexivity|].
  now destruct (stripped_text resp).
Qed.

Lemma summarize_markdown_eq (qa : list pyval) (prompt : string)
  (log : list string) :
  summary_prompt qa = inr prompt ->
  summarize_markdown qa log =
  match generate_content log prompt with
  | inl e => (inl e, log ++ [prompt])
  | inr resp =>
      match stripped_text resp with
      | inl e => (inl e, log ++ [prompt])
      | inr resumo =>
          (inr (or_else resumo "Não foi possível gerar o resumo."),
           log ++ [prompt])
      end
  end.
Proof.
  intros Hp.
  unfold Api.summarize_markdown, bind, model_generate_content, lift, ret,
    raise. rewrite Hp.
  destruct (generate_content log prompt) as [e|resp]; [reflexivity|].
  now destruct (stripped_text resp).
Qed.

(** ** Input validation *)

(** C5: a POST to [/api/ask] whose JSON object has no ["question"] key, or
    whose question is a string that is empty or blank after trimming, is
    answered with the 400 error "Campo 'question' é obrigatório" and the
    model is not called (the log of calls is unchanged). *)
Theorem ask_rejects_missing_or_blank_question
  (req : request) (d : list (string * pyval)) (log : list string) :
  method req = "POST" -> path req = "/api/ask" ->
  json_body req = Some (PDict d) ->
  dict_lookup "question" d = None
  \/ (exists s, dict_lookup "question" d = Some (PStr s) /\ strip s = "") ->
  dispatch req log
  = (Replied (bad_request "Campo 'question' é obrigatório"), log).
Proof.
  intros Hm Hp Hbody Hq.
  rewrite (dispatch_view req _ log (view_of_ask req Hm Hp)).
  rewrite ask_without_question; [reflexivity|].
  rewrite (data_of_object req d Hbody). simpl.
  destruct Hq as [-> | (s & -> & Hs)]; [now left | right; now exists s].
Qed.

(** C6: a POST to [/api/summarize] whose JSON object has no ["qa"] key, or
    whose ["qa"] is not a list, is answered with the 400 error
    "Campo 'qa' deve ser uma lista" and the model is not called. *)
Theorem summarize_rejects_missing_or_non_list
  (req : request) (d : list (string * pyval)) (log : list string) :
  method req = "POST" -> path req = "/api/summarize" ->
  json_body req = Some (PDict d) ->
  dict_lookup "qa" d = None
  \/ (exists v, dict_lookup "qa" d = Some v /\ isinstance_list v = false) ->
  dispatch req log
  = (Replied (bad_request "Campo 'qa' deve ser uma lista"), log).
Proof.
  intros Hm Hp Hbody Hq.
  rewrite (dispatch_view req _ log (view_of_summarize req Hm Hp)).
  destruct Hq as [Hq | (v & Hq & Hv)].
  - rewrite (summarize_without_list req PNone); [reflexivity | | now left].
    rewrite (data_of_object req d Hbody). simpl. now rewrite Hq.
  - rewrite (summarize_without_list req v); [reflexivity | | now right].
    rewrite (data_of_object req d Hbody). simpl. now rewrite Hq.
Qed.

(** C1, as the code has it: a POST to [/api/summarize] with [{"qa": []}] is
    rejected with the 400 error of the route and the model is not called,
    the empty list being falsy at line 164; the helper [summarize_markdown]
    itself, given the empty list, sends a prompt made of the five
    instruction lines alone, with no "Pergunta"/"Resposta" item. *)
Theorem summarize_rejects_empty_list
  (req : request) (d : list (string * pyval)) (log : list string) :
  method req = "POST" -> path req = "/api/summarize" ->
  json_body req = Some (PDict d) ->
  dict_lookup "qa" d = Some (PList []) ->
  dispatch req log
  = (Replied (bad_request "Campo 'qa' deve ser uma lista"), log)
  /\ summary_prompt [] = inr (String.concat nl SUMMARY_INSTRUCTIONS)
  /\ snd (summarize_markdown [] log)
     = log ++ [String.concat nl SUMMARY_INSTRUCTIONS]
  /\ ~ contains "Pergunta" (String.concat nl SUMMARY_INSTRUCTIONS)
  /\ ~ contains "Resposta" (String.concat nl SUMMARY_INSTRUCTIONS).
Proof.
  intros Hm Hp Hbody Hq. split; [|split; [|split; [|split]]].
  - rewrite (dispatch_view req _ log (view_of_summarize req Hm Hp)).
    rewrite (summarize_without_list req (PList [])); [reflexivity | | now left].
    rewrite (data_of_object req d Hbody). simpl. now rewrite Hq.
  - reflexivity.
  - rewrite (summarize_markdown_eq [] _ log eq_refl).
    destruct (generate_content log (String.concat nl SUMMARY_INSTRUCTIONS))
      as [e|resp]; [reflexivity|].
    now destruct (stripped_text resp).
  - rewrite <- containsb_spec. now vm_compute.
  - rewrite <- containsb_spec. now vm_compute.
Qed.

(** C10, as the code has it: when a POST to [/api/ask] or [/api/summarize]
    has no body, a body that is not valid JSON, or a falsy JSON value (null,
    false, 0, the empty string, [[]] or [{}]), [data] is the empty object and
    the reply is the 400 error of the route, the one an empty object gets;
    the model is not called. *)
Theorem unreadable_or_falsy_body_is_empty_object
  (req : request) (log : list string) :
  method req = "POST" ->
  json_body req = None
  \/ (exists v, json_body req = Some v /\ truthy v = false) ->
  (path req = "/api/ask" ->
   dispatch req log
   = (Replied (bad_request "Campo 'question' é obrigatório"), log)
   /\ dispatch req log = dispatch (post "/api/ask" (Some (PDict []))) log)
  /\ (path req = "/api/summarize" ->
      dispatch req log
      = (Replied (bad_request "Campo 'qa' deve ser uma lista"), log)
      /\ dispatch req log
         = dispatch (post "/api/summarize" (Some (PDict []))) log).
Proof.
  intros Hm Hbody. pose proof (data_of_falsy req Hbody) as Hdata.
  split; intros Hp.
  - assert (H : dispatch req log
                = (Replied (bad_request "Campo 'question' é obrigatório"), log)).
    { rewrite (dispatch_view req _ log (view_of_ask req Hm Hp)).
      rewrite ask_without_question; [reflexivity|].
      rewrite Hdata. now left. }
    split; [exact H|]. now rewrite H.
  - assert (H : dispatch req log
                = (Replied (bad_request "Campo 'qa' deve ser uma lista"), log)).
    { rewrite (dispatch_view req _ log (view_of_summarize req Hm Hp)).
      rewrite (summarize_without_list req PNone); [reflexivity | | now left].
      now rewrite Hdata. }
    split; [exact H|]. now rewrite H.
Qed.

(** C8: a GET of [/api/health] is answered with status 200 and the payload
    [{"ok": true}], whatever the model, the log of earlier calls and the rest
    of the request are; the model is not called. *)
Theorem health_always_ok (req : request) (log : list string) :
  method req = "GET" -> path req = "/api/health" ->
  dispatch req log
  = (Replied (mkResponse 200 (PDict [("ok", PBool true)])), log).
Proof.
  intros Hm Hp.
  now rewrite (dispatch_view req _ log (view_of_health req Hm Hp)).
Qed.

(** ** The call to the model *)

(** C3, as the code has it: for a question [Q] that is not blank, a POST to
    [/api/ask] calls the model exactly once; the prompt of that call is the
    fixed Markdown instructions followed by [Q] trimmed (line 143 strips the
    question before it is used), so it contains [Q] verbatim when [Q] has no
    leading or trailing whitespace. *)
Theorem ask_sends_trimmed_question
  (req : request) (d : list (string * pyval)) (Q : string)
  (log : list string) :
  method req = "POST" -> path req = "/api/ask" ->
  json_body req = Some (PDict d) ->
  dict_lookup "question" d = Some (PStr Q) ->
  strip Q <> "" ->
  snd (dispatch req log) = log ++ [ANSWER_INSTRUCTIONS +:+ strip Q]
  /\ contains ANSWER_INSTRUCTIONS (ANSWER_INSTRUCTIONS +:+ strip Q)
  /\ contains (strip Q) (ANSWER_INSTRUCTIONS +:+ strip Q)
  /\ (strip Q = Q -> contains Q (ANSWER_INSTRUCTIONS +:+ strip Q)).
Proof.
  intros Hm Hp Hbody Hq HQ. split; [|split; [|split]].
  - rewrite (dispatch_view req _ log (view_of_ask req Hm Hp)).
    rewrite (ask_with_question req Q log); [|
      rewrite (data_of_object req d Hbody); simpl; now rewrite Hq | exact HQ].
    cbv zeta. unfold answer_prompt.
    destruct (generate_content log (ANSWER_INSTRUCTIONS +:+ strip Q))
      as [e|resp]; [reflexivity|].
    now destruct (stripped_text resp).
  - apply contains_prefix.
  - apply contains_suffix.
  - intros HQQ. rewrite HQQ. apply contains_suffix.
Qed.

(** C4: when a request has passed the validation of its route and the call
    to the model raises [e], the route answers with status 500 and the
    message "Erro ao gerar resposta: " (or "Erro ao gerar resumo: ") followed
    by [str(e)]; no exception leaves the view, and the requests that follow
    are served as they would be after any other single call. *)
Theorem upstream_failure_gives_500
  (log : list string) (e : exn) (later : list request) :
  (forall (req : request) (d : list (string * pyval)) (Q : string),
     method req = "POST" -> path req = "/api/ask" ->
     json_body req = Some (PDict d) ->
     dict_lookup "question" d = Some (PStr Q) ->
     strip Q <> "" ->
     generate_content log (answer_prompt (strip Q)) = inl e ->
     dispatch req log
     = (Replied (server_error ("Erro ao gerar resposta: " +:+ exn_str e)),
        log ++ [answer_prompt (strip Q)])
     /\ serve (req :: later) log
        = (Replied (server_error ("Erro ao gerar resposta: " +:+ exn_str e))
             :: fst (serve later (log ++ [answer_prompt (strip Q)])),
           snd (serve later (log ++ [answer_prompt (strip Q)]))))
  /\
  (forall (req : request) (d : list (string * pyval)) (qa : list pyval)
          (prompt : string),
     method req = "POST" -> path req = "/api/summarize" ->
     json_body req = Some (PDict d) ->
     dict_lookup "qa" d = Some (PList qa) ->
     qa <> [] ->
     summary_prompt qa = inr prompt ->
     generate_content log prompt = inl e ->
     dispatch req log
     = (Replied (server_error ("Erro ao gerar resumo: " +:+ exn_str e)),
        log ++ [prompt])
     /\ serve (req :: later) log
        = (Replied (server_error ("Erro ao gerar resumo: " +:+ exn_str e))
             :: fst (serve later (log ++ [prompt])),
           snd (serve later (log ++ [prompt])))).
Proof.
  split.
  - intros req d Q Hm Hp Hbody Hq HQ Hup.
    assert (H : dispatch req log
                = (Replied
                     (server_error ("Erro ao gerar resposta: " +:+ exn_str e)),
                   log ++ [answer_prompt (strip Q)])).
    { rewrite (dispatch_view req _ log (view_of_ask req Hm Hp)).
      rewrite (ask_with_question req Q log); [|
        rewrite (data_of_object req d Hbody); simpl; now rewrite Hq | exact HQ].
      cbv zeta. now rewrite Hup. }
    split; [exact H|]. simpl. rewrite H.
    now destruct (serve later (log ++ [answer_prompt (strip Q)])).
  - intros req d qa prompt Hm Hp Hbody Hq Hne Hprompt Hup.
    destruct qa as [|item rest]; [congruence|].
    assert (H : dispatch req log
                = (Replied
                     (server_error ("Erro ao gerar resumo: " +:+ exn_str e)),
                   log ++ [prompt])).
    { rewrite (dispatch_view req _ log (view_of_summarize req Hm Hp)).
      rewrite (summarize_with_list req item rest log); [|
        rewrite (data_of_object req d Hbody); simpl; now rewrite Hq].
      rewrite Hprompt. now rewrite Hup. }
    split; [exact H|]. simpl. rewrite H.
    now destruct (serve later (log ++ [prompt])).
Qed.

(** ** The text returned by the helpers *)

Lemma stripped_text_fixed (resp : generation) (a : string) :
  stripped_text resp = inr a -> strip a = a.
Proof.
  unfold stripped_text.
  destruct (getattr_text resp (PStr "")) as [e|t]; [discriminate|].
  destruct (py_or t (PStr "")); simpl; try discriminate.
  intros [= <-]. apply strip_idempotent.
Qed.

Lemma stripped_text_blank (resp : generation) :
  text resp = AttrMissing
  \/ text resp = AttrValue PNone
  \/ (exists s, text resp = AttrValue (PStr s) /\ strip s = "") ->
  stripped_text resp = inr "".
Proof.
  unfold stripped_text, getattr_text.
  intros [-> | [-> | (s & -> & Hs)]]; try reflexivity.
  unfold py_or. simpl. destruct (String.eqb s ""); simpl; [reflexivity|].
  now rewrite Hs.
Qed.

Lemma or_else_not_blank (a fallback : string) :
  strip a = a -> strip fallback = fallback -> fallback <> "" ->
  or_else a fallback <> "" /\ strip (or_else a fallback) <> "".
Proof.
  intros Ha Hf Hne. unfold or_else.
  destruct (String.eqb a "") eqn:E.
  - rewrite Hf. now split.
  - apply string_eqb_empty in E. rewrite Ha. now split.
Qed.

Lemma answer_fallback_fixed :
  strip "Não consegui gerar resposta." = "Não consegui gerar resposta.".
Proof. now vm_compute. Qed.

Lemma summary_fallback_fixed :
  strip "Não foi possível gerar o resumo."
  = "Não foi possível gerar o resumo.".
Proof. now vm_compute. Qed.

(** A 200 of [/api/ask] carries the text of the helper. *)
Lemma ask_200 (req : request) (log log' : list string) (r : response) :
  ask req log = (inr r, log') -> status r = 200 ->
  exists q a,
    generate_markdown_answer q log = (inr a, log')
    /\ r = jsonify (PDict [("answer", PStr a)]).
Proof.
  unfold Api.ask, bind, lift.
  destruct (py_get _ "question" PNone) as [e|v]; simpl; [discriminate|].
  destruct (py_strip (py_or v (PStr ""))) as [e|q]; simpl; [discriminate|].
  destruct (String.eqb q ""); simpl.
  - intros [= <- _]. discriminate.
  - unfold try_except, bind.
    destruct (generate_markdown_answer q log) as [[e|a] l'] eqn:E; simpl.
    + intros [= <- _]. discriminate.
    + intros [= <- <-] _. now exists q, a.
Qed.

(** A 200 of [/api/summarize] carries the text of the helper. *)
Lemma summarize_200 (req : request) (log log' : list string) (r : response) :
  summarize req log = (inr r, log') -> status r = 200 ->
  exists qa a,
    summarize_markdown qa log = (inr a, log')
    /\ r = jsonify (PDict [("summary", PStr a)]).
Proof.
  unfold Api.summarize, bind, lift.
  destruct (py_get _ "qa" PNone) as [e|v]; simpl; [discriminate|].
  destruct (negb (truthy v) || negb (isinstance_list v)); simpl.
  - intros [= <- _]. discriminate.
  - unfold try_except, bind.
    destruct (summarize_markdown (list_items v) log) as [[e|a] l'] eqn:E;
      simpl.
    + intros [= <- _]. discriminate.
    + intros [= <- <-] _. now exists (list_items v), a.
Qed.

Lemma generate_markdown_answer_not_blank
  (question : string) (log log' : list string) (r : string) :
  generate_markdown_answer question log = (inr r, log') ->
  r <> "" /\ strip r <> "".
Proof.
  rewrite generate_markdown_answer_eq. cbv zeta.
  destruct (generate_content log (answer_prompt question)) as [e|resp];
    [discriminate|].
  destruct (stripped_text resp) as [e|a] eqn:E; [discriminate|].
  intros [= <- _]. apply or_else_not_blank.
  - exact (stripped_text_fixed resp a E).
  - exact answer_fallback_fixed.
  - discriminate.
Qed.

Lemma summarize_markdown_not_blank
  (qa : list pyval) (log log' : list string) (r : string) :
  summarize_markdown qa log = (inr r, log') ->
  r <> "" /\ strip r <> "".
Proof.
  destruct (summary_prompt qa) as [e|prompt] eqn:Ep.
  - unfold Api.summarize_markdown, bind, lift, raise. rewrite Ep.
    discriminate.
  - rewrite (summarize_markdown_eq qa prompt log Ep).
    destruct (generate_content log prompt) as [e|resp]; [discriminate|].
    destruct (stripped_text resp) as [e|a] eqn:E; [discriminate|].
    intros [= <- _]. apply or_else_not_blank.
    + exact (stripped_text_fixed resp a E).
    + exact summary_fallback_fixed.
    + discriminate.
Qed.

(** C9: whatever the model returns, the text the helpers return is neither
    empty nor blank; when the [text] of the model's response is missing,
    [None], empty or blank after trimming, [generate_markdown_answer] returns
    "Não consegui gerar resposta." and [summarize_markdown] returns
    "Não foi possível gerar o resumo."; hence the answer or summary of a 200
    response is never blank. *)
Theorem helper_text_never_blank
  (question : string) (qa : list pyval) (log : list string) :
  (forall r log',
     generate_markdown_answer question log = (inr r, log') ->
     r <> "" /\ strip r <> "")
  /\ (forall r log',
        summarize_markdown qa log = (inr r, log') ->
        r <> "" /\ strip r <> "")
  /\ (forall resp,
        generate_content log (answer_prompt question) = inr resp ->
        text resp = AttrMissing
        \/ text resp = AttrValue PNone
        \/ (exists s, text resp = AttrValue (PStr s) /\ strip s = "") ->
        generate_markdown_answer question log
        = (inr "Não consegui gerar resposta.",
           log ++ [answer_prompt question]))
  /\ (forall prompt resp,
        summary_prompt qa = inr prompt ->
        generate_content log prompt = inr resp ->
        text resp = AttrMissing
        \/ text resp = AttrValue PNone
        \/ (exists s, text resp = AttrValue (PStr s) /\ strip s = "") ->
        summarize_markdown qa log
        = (inr "Não foi possível gerar o resumo.", log ++ [prompt]))
  /\ (forall req r log',
        method req = "POST" ->
        path req = "/api/ask" \/ path req = "/api/summarize" ->
        dispatch req log = (Replied r, log') ->
        status r = 200 ->
        exists s,
          (payload r = PDict [("answer", PStr s)]
           \/ payload r = PDict [("summary", PStr s)])
          /\ s <> "" /\ strip s <> "").
Proof.
  split; [|split; [|split; [|split]]].
  - intros r log'. apply generate_markdown_answer_not_blank.
  - intros r log'. apply summarize_markdown_not_blank.
  - intros resp Hup Hblank. rewrite generate_markdown_answer_eq. cbv zeta.
    rewrite Hup. now rewrite (stripped_text_blank resp Hblank).
  - intros prompt resp Hp Hup Hblank.
    rewrite (summarize_markdown_eq qa prompt log Hp), Hup.
    now rewrite (stripped_text_blank resp Hblank).
  - intros req r log' Hm [Hp|Hp] Hd Hs.
    + rewrite (dispatch_view req _ log (view_of_ask req Hm Hp)) in Hd.
      destruct (ask req log) as [[e|r'] l'] eqn:E; [discriminate|].
      injection Hd as -> ->.
      destruct (ask_200 req log log' r E Hs) as (q & a & Hg & ->).
      exists a. split; [now left|].
      exact (generate_markdown_answer_not_blank q log log' a Hg).
    + rewrite (dispatch_view req _ log (view_of_summarize req Hm Hp)) in Hd.
      destruct (summarize req log) as [[e|r'] l'] eqn:E; [discriminate|].
      injection Hd as -> ->.
      destruct (summarize_200 req log log' r E Hs) as (l & a & Hg & ->).
      exists a. split; [now right|].
      exact (summarize_markdown_not_blank l log log' a Hg).
Qed.

(** ** The summary prompt *)

(** The loop of [summarize_markdown] appends the lines of the
    specification. *)
Lemma append_items_item_lines
  (qa : list pyval) (pairs : list (string * string)) :
  Forall2 (fun item p => is_pair item (fst p) (snd p)) qa pairs ->
  forall (i : Z) (linhas : list string),
    append_items builtin_repr i qa linhas = inr (linhas ++ item_lines i pairs).
Proof.
  induction 1 as [|item [q0 a0] qa pairs (d & -> & Hq & Ha) _ IH];
    intros i linhas.
  - simpl. now rewrite app_nil_r.
  - simpl in Hq, Ha. simpl. rewrite py_or_dict. simpl. rewrite Hq, Ha. simpl.
    rewrite IH. now rewrite <- app_assoc.
Qed.

Lemma item_lines_length (pairs : list (string * string)) (i : Z) :
  length (item_lines i pairs) = (2 * length pairs)%nat.
Proof.
  revert i; induction pairs as [|[q a] pairs IH]; intros i; simpl;
    [reflexivity|].
  rewrite IH. lia.
Qed.

Lemma item_lines_lookup (pairs : list (string * string)) :
  forall (i : Z) (k : nat) (q a : string),
    pairs !! k = Some (q, a) ->
    item_lines i pairs !! (2 * k)%nat
    = Some ("- Pergunta " +:+ str_int (i + Z.of_nat k) +:+ ": " +:+ q)
    /\ item_lines i pairs !! (2 * k + 1)%nat
       = Some ("- Resposta " +:+ str_int (i + Z.of_nat k) +:+ ": " +:+ a).
Proof.
  induction pairs as [|[q0 a0] pairs IH]; intros i k q a Hk.
  - now rewrite lookup_nil in Hk.
  - destruct k as [|k].
    + injection Hk as <- <-. rewrite Z.add_0_r. now split.
    + destruct (IH (i + 1) k q a Hk) as [H1 H2].
      replace (i + Z.of_nat (S k)) with (i + 1 + Z.of_nat k) by lia.
      replace (2 * S k + 1)%nat with (S (S (2 * k + 1))) by lia.
      replace (2 * S k)%nat with (S (S (2 * k))) by lia.
      split; [exact H1 | exact H2].
Qed.

Lemma item_lines_no_newline (pairs : list (string * string)) :
  Forall (fun p => has_newline (fst p) = false /\ has_newline (snd p) = false)
    pairs ->
  forall i : Z,
    Forall (fun line => has_newline line = false) (item_lines i pairs).
Proof.
  induction 1 as [|[q a] pairs [Hq Ha] _ IH]; intros i; simpl.
  - constructor.
  - simpl in Hq, Ha.
    constructor; [|constructor; [|apply IH]];
      rewrite !has_newline_append, str_int_no_newline; simpl.
    + exact Hq.
    + exact Ha.
Qed.

Lemma summary_instructions_no_newline :
  Forall (fun line => has_newline line = false) SUMMARY_INSTRUCTIONS.
Proof. repeat constructor. Qed.

(** C2: for a list of N objects with string fields [q] and [a], the prompt
    [summarize_markdown] sends is the five instruction lines (at most 8
    bullet topics, a closing "Próximas ações:" of 3 items) followed by
    exactly 2N lines, joined by newlines: the lines "- Pergunta i: q" and
    "- Resposta i: a" of the i-th pair, for i = 1..N in the order of the
    list.  When no question or answer contains a newline itself, these are
    all the lines of the prompt. *)
Theorem summary_prompt_enumerates_pairs
  (qa : list pyval) (pairs : list (string * string)) (log : list string) :
  Forall2 (fun item p => is_pair item (fst p) (snd p)) qa pairs ->
  exists items : list string,
    summary_prompt qa
    = inr (String.concat nl (SUMMARY_INSTRUCTIONS ++ items))
    /\ snd (summarize_markdown qa log)
       = log ++ [String.concat nl (SUMMARY_INSTRUCTIONS ++ items)]
    /\ length items = (2 * length pairs)%nat
    /\ (forall (k : nat) (q a : string),
          pairs !! k = Some (q, a) ->
          items !! (2 * k)%nat
          = Some ("- Pergunta " +:+ str_int (Z.of_nat (S k)) +:+ ": " +:+ q)
          /\ items !! (2 * k + 1)%nat
             = Some ("- Resposta " +:+ str_int (Z.of_nat (S k)) +:+ ": "
                     +:+ a))
    /\ (Forall (fun p => has_newline (fst p) = false
                         /\ has_newline (snd p) = false) pairs ->
        split_nl (String.concat nl (SUMMARY_INSTRUCTIONS ++ items))
        = SUMMARY_INSTRUCTIONS ++ items)
    /\ SUMMARY_INSTRUCTIONS !! 1%nat
       = Some "• Traga ATÉ 8 tópicos (bullets)."
    /\ SUMMARY_INSTRUCTIONS !! 2%nat
       = Some "• Termine com 'Próximas ações:' e 3 itens.".
Proof.
  intros Hqa.
  pose proof (append_items_item_lines qa pairs Hqa 1 SUMMARY_INSTRUCTIONS)
    as Heq.
  assert (Hp : summary_prompt qa
               = inr (String.concat nl
                        (SUMMARY_INSTRUCTIONS ++ item_lines 1 pairs))).
  { unfold Api.summary_prompt. now rewrite Heq. }
  exists (item_lines 1 pairs).
  split; [exact Hp|]. split; [|split; [|split; [|split]]].
  - rewrite (summarize_markdown_eq qa _ log Hp).
    destruct (generate_content log _) as [e|resp]; [reflexivity|].
    now destruct (stripped_text resp).
  - apply item_lines_length.
  - intros k q a Hk. destruct (item_lines_lookup pairs 1 k q a Hk) as [H1 H2].
    replace (Z.of_nat (S k)) with (1 + Z.of_nat k) by lia. now split.
  - intros Hnl. apply split_nl_concat; [discriminate|].
    apply List.Forall_app. split.
    + exact summary_instructions_no_newline.
    + now apply item_lines_no_newline.
  - split; reflexivity.
Qed.

(** ** Startup *)

(** C7: when [GEMINI_API_KEY] is unset or empty once the [.env] file has been
    loaded, importing the module raises the [RuntimeError] of line 27 and
    no request is served; when it holds a non-empty key, the module is set
    up with that key and the requests are served. *)
Theorem startup_needs_api_key
  (dotenv environ : gmap string string) (reqs : list request)
  (log : list string) :
  (load_dotenv dotenv environ !! "GEMINI_API_KEY" = None
   \/ load_dotenv dotenv environ !! "GEMINI_API_KEY" = Some "" ->
   startup dotenv environ = inl missing_key_error
   /\ run dotenv environ reqs log = (Aborted missing_key_error, log))
  /\ (forall k : string,
        load_dotenv dotenv environ !! "GEMINI_API_KEY" = Some k ->
        k <> "" ->
        (exists st, startup dotenv environ = inr st /\ API_KEY st = PStr k)
        /\ run dotenv environ reqs log
           = (Served (fst (serve reqs log)), snd (serve reqs log))).
Proof.
  unfold Api.run, startup, getenv. split.
  - intros [-> | ->]; now split.
  - intros key -> Hkey. apply string_eqb_empty in Hkey. simpl.
    rewrite Hkey. simpl.
    split; [now eexists|]. now destruct (serve reqs log).
Qed.

(** * Further behaviour of the routes *)

(** ** What [ask] does with each kind of question *)

Lemma snoc_neq {A} (l : list A) (x : A) : l ++ [x] <> l.
Proof.
  intros H. apply (f_equal (@length A)) in H. rewrite length_app in H.
  simpl in H. lia.
Qed.

(** A falsy question is replaced by the empty string at line 143. *)
Lemma ask_with_falsy_question (req : request) (v : pyval)
  (log : list string) :
  py_get (py_or (get_json_silent req) (PDict [])) "question" PNone = inr v ->
  truthy v = false ->
  ask req log = (inr (bad_request "Campo 'question' é obrigatório"), log).
Proof.
  intros Hget Hv. unfold Api.ask, bind, lift, ret. rewrite Hget. simpl.
  now rewrite (py_or_falsy v (PStr "") Hv).
Qed.

(** A question that is truthy and not a string has no [strip]. *)
Lemma ask_with_non_string (req : request) (v : pyval) (log : list string) :
  py_get (py_or (get_json_silent req) (PDict [])) "question" PNone = inr v ->
  truthy v = true -> isinstance_str v = false ->
  ask req log = (inl (no_attribute v "strip"), log).
Proof.
  intros Hget Hv Hs. unfold Api.ask, bind, lift, ret, raise.
  rewrite Hget. simpl. unfold py_or. rewrite Hv.
  now destruct v.
Qed.

(** The question of a JSON object, as line 143 reads it. *)
Lemma question_of_object (req : request) (d : list (string * pyval)) :
  json_body req = Some (PDict d) ->
  py_get (py_or (get_json_silent req) (PDict [])) "question" PNone
  = inr (match dict_lookup "question" d with Some v => v | None => PNone end).
Proof. intros Hbody. now rewrite (data_of_object req d Hbody). Qed.

Lemma qa_of_object (req : request) (d : list (string * pyval)) :
  json_body req = Some (PDict d) ->
  py_get (py_or (get_json_silent req) (PDict [])) "qa" PNone
  = inr (match dict_lookup "qa" d with Some v => v | None => PNone end).
Proof. intros Hbody. now rewrite (data_of_object req d Hbody). Qed.

(** [/api/ask] answers 400 without calling the model exactly when the
    question is missing, falsy (null, false, 0, an empty string, list or
    object) or a string that is blank after trimming. *)
Theorem ask_400_iff_unusable_question
  (req : request) (d : list (string * pyval)) (log : list string) :
  method req = "POST" -> path req = "/api/ask" ->
  json_body req = Some (PDict d) ->
  dispatch req log
  = (Replied (bad_request "Campo 'question' é obrigatório"), log)
  <-> (dict_lookup "question" d = None
       \/ exists v, dict_lookup "question" d = Some v
                    /\ (truthy v = false
                        \/ exists s, v = PStr s /\ strip s = "")).
Proof.
  intros Hm Hp Hbody.
  rewrite (dispatch_view req _ log (view_of_ask req Hm Hp)).
  pose proof (question_of_object req d Hbody) as Hget.
  destruct (dict_lookup "question" d) as [v|] eqn:Hq.
  - destruct (truthy v) eqn:Hv.
    + destruct (isinstance_str v) eqn:Hs.
      * destruct v as [| | | |s| |]; try discriminate.
        destruct (string_dec (strip s) "") as [Hblank|Hblank].
        -- rewrite ask_without_question; [|right; now exists s].
           split; [intros _|reflexivity]. right. exists (PStr s).
           split; [reflexivity|]. right. now exists s.
        -- rewrite (ask_with_question req s log Hget Hblank). cbv zeta.
           split.
           ++ intros H. exfalso.
              destruct (generate_content log (answer_prompt (strip s)))
                as [e|resp]; [discriminate|].
              destruct (stripped_text resp); discriminate.
           ++ intros [H | (v & [= <-] & [H | (s' & [= <-] & H)])];
                congruence.
      * rewrite (ask_with_non_string req v log Hget Hv Hs). split.
        -- discriminate.
        -- intros [H | (v' & [= <-] & [H | (s & -> & _)])];
             [discriminate | congruence | discriminate].
    + rewrite (ask_with_falsy_question req v log Hget Hv).
      split; [intros _|reflexivity]. right. exists v. split; [reflexivity|].
      now left.
  - rewrite ask_without_question; [|now left].
    split; [intros _; now left | reflexivity].
Qed.

(** A question that is truthy and not a string (a number, [true], a list
    or an object) makes [.strip()] raise at line 143, outside the [try]:
    the [AttributeError] leaves the view and the model is not called. *)
Theorem ask_non_string_question_raises
  (req : request) (d : list (string * pyval)) (v : pyval)
  (log : list string) :
  method req = "POST" -> path req = "/api/ask" ->
  json_body req = Some (PDict d) ->
  dict_lookup "question" d = Some v ->
  truthy v = true -> isinstance_str v = false ->
  dispatch req log
  = (InternalServerError
       (mkExn AttributeError
          ("'" +:+ type_name v +:+ "' object has no attribute 'strip'")),
     log).
Proof.
  intros Hm Hp Hbody Hq Hv Hs.
  rewrite (dispatch_view req _ log (view_of_ask req Hm Hp)).
  pose proof (question_of_object req d Hbody) as Hget. rewrite Hq in Hget.
  now rewrite (ask_with_non_string req v log Hget Hv Hs).
Qed.

(** Whitespace around the question does not matter: a request whose
    question is [Q] and one whose question is [Q] already trimmed get the
    same reply and send the same prompt. *)
Theorem ask_ignores_surrounding_whitespace
  (req1 req2 : request) (d1 d2 : list (string * pyval)) (Q : string)
  (log : list string) :
  method req1 = "POST" -> path req1 = "/api/ask" ->
  method req2 = "POST" -> path req2 = "/api/ask" ->
  json_body req1 = Some (PDict d1) -> json_body req2 = Some (PDict d2) ->
  dict_lookup "question" d1 = Some (PStr Q) ->
  dict_lookup "question" d2 = Some (PStr (strip Q)) ->
  dispatch req1 log = dispatch req2 log.
Proof.
  intros Hm1 Hp1 Hm2 Hp2 Hb1 Hb2 Hq1 Hq2.
  rewrite (dispatch_view req1 _ log (view_of_ask req1 Hm1 Hp1)).
  rewrite (dispatch_view req2 _ log (view_of_ask req2 Hm2 Hp2)).
  pose proof (question_of_object req1 d1 Hb1) as Hg1. rewrite Hq1 in Hg1.
  pose proof (question_of_object req2 d2 Hb2) as Hg2. rewrite Hq2 in Hg2.
  destruct (string_dec (strip Q) "") as [Hblank|Hblank].
  - rewrite (ask_without_question req1); [|right; now exists Q].
    rewrite (ask_without_question req2); [reflexivity|].
    right. exists (strip Q). split; [exact Hg2|].
    now rewrite strip_idempotent.
  - rewrite (ask_with_question req1 Q log Hg1 Hblank).
    rewrite (ask_with_question req2 (strip Q) log Hg2);
      rewrite strip_idempotent; [reflexivity | exact Hblank].
Qed.

(** ** What [summarize] does with each kind of [qa] *)

(** [/api/summarize] answers 400 without calling the model exactly when
    [qa] is missing, falsy (which includes the empty list) or not a list. *)
Theorem summarize_400_iff_no_usable_list
  (req : request) (d : list (string * pyval)) (log : list string) :
  method req = "POST" -> path req = "/api/summarize" ->
  json_body req = Some (PDict d) ->
  dispatch req log
  = (Replied (bad_request "Campo 'qa' deve ser uma lista"), log)
  <-> (dict_lookup "qa" d = None
       \/ exists v, dict_lookup "qa" d = Some v
                    /\ (truthy v = false \/ isinstance_list v = false)).
Proof.
  intros Hm Hp Hbody.
  rewrite (dispatch_view req _ log (view_of_summarize req Hm Hp)).
  pose proof (qa_of_object req d Hbody) as Hget.
  destruct (dict_lookup "qa" d) as [v|] eqn:Hq.
  - destruct (truthy v) eqn:Hv.
    + destruct (isinstance_list v) eqn:Hl.
      * destruct v as [| | | | |[|item rest]|]; try discriminate.
        rewrite (summarize_with_list req item rest log Hget). split.
        -- intros H. exfalso.
           destruct (summary_prompt (item :: rest)) as [e|prompt];
             [discriminate|].
           destruct (generate_content log prompt) as [e|resp];
             [discriminate|].
           destruct (stripped_text resp); discriminate.
        -- intros [H | (v & [= <-] & [H | H])]; discriminate.
      * rewrite (summarize_without_list req v log Hget); [|now right].
        split; [intros _|reflexivity]. right. exists v.
        split; [reflexivity | now right].
    + rewrite (summarize_without_list req v log Hget); [|now left].
      split; [intros _|reflexivity]. right. exists v.
      split; [reflexivity | now left].
  - rewrite (summarize_without_list req PNone log Hget); [|now left].
    split; [intros _; now left | reflexivity].
Qed.

(** An item that is an object or falsy yields its fields. *)
Lemma py_get_item_field (item : pyval) (key : string) :
  isinstance_dict item = true \/ truthy item = false ->
  py_get (py_or item (PDict [])) key (PStr "") = inr (item_field item key).
Proof.
  intros [Hd | Hf].
  - destruct item; try discriminate. now rewrite py_or_dict.
  - rewrite (py_or_falsy item (PDict []) Hf).
    destruct item as [| | | | | |[|kv d]]; try reflexivity. discriminate.
Qed.

(** An item that is truthy and not an object has no [get]. *)
Lemma py_get_item_raises (item : pyval) (key : string) :
  truthy item = true -> isinstance_dict item = false ->
  py_get (py_or item (PDict [])) key (PStr "") = inl (no_attribute item "get").
Proof.
  intros Ht Hd. unfold py_or. rewrite Ht. now destruct item.
Qed.

(** The loop over items that are objects or falsy: two lines per item,
    built from the fields [q] and [a]. *)
Lemma append_items_fields (qa : list pyval) :
  Forall (fun item => isinstance_dict item = true \/ truthy item = false) qa ->
  forall (i : Z) (linhas : list string),
  exists items : list string,
    append_items builtin_repr i qa linhas = inr (linhas ++ items)
    /\ length items = (2 * length qa)%nat
    /\ forall (k : nat) (item : pyval),
         qa !! k = Some item ->
         items !! (2 * k)%nat
         = Some ("- Pergunta " +:+ str_int (i + Z.of_nat k) +:+ ": "
                 +:+ py_format builtin_repr (item_field item "q"))
         /\ items !! (2 * k + 1)%nat
            = Some ("- Resposta " +:+ str_int (i + Z.of_nat k) +:+ ": "
                    +:+ py_format builtin_repr (item_field item "a")).
Proof.
  induction 1 as [|item0 qa Hok _ IH]; intros i linhas.
  - exists []. rewrite app_nil_r.
    split; [reflexivity|]. split; [reflexivity|]. intros k item Hk.
    now rewrite lookup_nil in Hk.
  - cbn [append_items].
    rewrite !(py_get_item_field item0 _ Hok).
    destruct (IH (i + 1)
                (linhas ++
                 ["- Pergunta " +:+ str_int i +:+ ": "
                  +:+ py_format builtin_repr (item_field item0 "q");
                  "- Resposta " +:+ str_int i +:+ ": "
                  +:+ py_format builtin_repr (item_field item0 "a")]))
      as (items & Heq & Hlen & Hnth).
    exists (["- Pergunta " +:+ str_int i +:+ ": "
             +:+ py_format builtin_repr (item_field item0 "q");
             "- Resposta " +:+ str_int i +:+ ": "
             +:+ py_format builtin_repr (item_field item0 "a")] ++ items).
    split; [|split].
    + rewrite Heq. now rewrite <- app_assoc.
    + rewrite length_app, Hlen. simpl. lia.
    + intros [|k] item Hk.
      * injection Hk as <-. rewrite Z.add_0_r. now split.
      * destruct (Hnth k item Hk) as [H1 H2].
        replace (i + Z.of_nat (S k)) with (i + 1 + Z.of_nat k) by lia.
        replace (2 * S k + 1)%nat with (S (S (2 * k + 1))) by lia.
        replace (2 * S k)%nat with (S (S (2 * k))) by lia.
        split; [exact H1 | exact H2].
Qed.

(** The loop stops at the first item that is truthy and not an object. *)
Lemma append_items_raises (pre post : list pyval) (item : pyval) :
  Forall (fun x => isinstance_dict x = true \/ truthy x = false) pre ->
  truthy item = true -> isinstance_dict item = false ->
  forall (i : Z) (linhas : list string),
    append_items builtin_repr i (pre ++ item :: post) linhas
    = inl (no_attribute item "get").
Proof.
  intros Hpre Ht Hd. induction Hpre as [|x pre Hok _ IH]; intros i linhas.
  - cbn [app append_items]. now rewrite (py_get_item_raises item "q" Ht Hd).
  - cbn [app append_items]. rewrite !(py_get_item_field x _ Hok). apply IH.
Qed.

(** Every item of [qa] that is an object or falsy gets its two lines, also
    when fields are missing or are not strings: a missing field or a falsy
    item gives an empty text, and any other value is interpolated as
    [str()] prints it (so a field that is null gives "None"). *)
Theorem summary_prompt_of_any_objects (qa : list pyval) (log : list string) :
  Forall (fun item => isinstance_dict item = true \/ truthy item = false) qa ->
  exists items : list string,
    summary_prompt qa
    = inr (String.concat nl (SUMMARY_INSTRUCTIONS ++ items))
    /\ snd (summarize_markdown qa log)
       = log ++ [String.concat nl (SUMMARY_INSTRUCTIONS ++ items)]
    /\ length items = (2 * length qa)%nat
    /\ forall (k : nat) (item : pyval),
         qa !! k = Some item ->
         items !! (2 * k)%nat
         = Some ("- Pergunta " +:+ str_int (Z.of_nat (S k)) +:+ ": "
                 +:+ py_format builtin_repr (item_field item "q"))
         /\ items !! (2 * k + 1)%nat
            = Some ("- Resposta " +:+ str_int (Z.of_nat (S k)) +:+ ": "
                    +:+ py_format builtin_repr (item_field item "a")).
Proof.
  intros Hqa.
  destruct (append_items_fields qa Hqa 1 SUMMARY_INSTRUCTIONS)
    as (items & Heq & Hlen & Hnth).
  assert (Hp : summary_prompt qa
               = inr (String.concat nl (SUMMARY_INSTRUCTIONS ++ items))).
  { unfold Api.summary_prompt. now rewrite Heq. }
  exists items. split; [exact Hp|]. split; [|split; [exact Hlen|]].
  - rewrite (summarize_markdown_eq qa _ log Hp).
    destruct (generate_content log _) as [e|resp]; [reflexivity|].
    now destruct (stripped_text resp).
  - intros k item Hk. destruct (Hnth k item Hk) as [H1 H2].
    replace (Z.of_nat (S k)) with (1 + Z.of_nat k) by lia. now split.
Qed.

(** When some item of a list is truthy and not an object (a number, a
    string, a nested list), [summarize_markdown] raises at the first such
    item before the model is called, and the route answers 500 with the
    text of that [AttributeError]. *)
Theorem summarize_item_without_get_gives_500
  (req : request) (d : list (string * pyval)) (pre post : list pyval)
  (item : pyval) (log : list string) :
  method req = "POST" -> path req = "/api/summarize" ->
  json_body req = Some (PDict d) ->
  dict_lookup "qa" d = Some (PList (pre ++ item :: post)) ->
  Forall (fun x => isinstance_dict x = true \/ truthy x = false) pre ->
  truthy item = true -> isinstance_dict item = false ->
  dispatch req log
  = (Replied
       (server_error
          ("Erro ao gerar resumo: " +:+ "'" +:+ type_name item
           +:+ "' object has no attribute 'get'")),
     log).
Proof.
  intros Hm Hp Hbody Hq Hpre Ht Hd.
  rewrite (dispatch_view req _ log (view_of_summarize req Hm Hp)).
  pose proof (qa_of_object req d Hbody) as Hget. rewrite Hq in Hget.
  assert (Hsp : summary_prompt (pre ++ item :: post)
                = inl (no_attribute item "get")).
  { unfold Api.summary_prompt.
    now rewrite (append_items_raises pre post item Hpre Ht Hd). }
  destruct (pre ++ item :: post) as [|x xs] eqn:E;
    [destruct pre; discriminate|].
  rewrite (summarize_with_list req x xs log Hget). now rewrite Hsp.
Qed.

(** ** What the routes do with each kind of model response *)

Lemma stripped_text_of_string (resp : generation) (t : string) :
  text resp = AttrValue (PStr t) -> stripped_text resp = inr (strip t).
Proof.
  unfold stripped_text, getattr_text. intros ->. unfold py_or. simpl.
  now destruct (String.eqb_spec t "") as [->|].
Qed.

Lemma or_else_non_empty (s fallback : string) :
  s <> "" -> or_else s fallback = s.
Proof. intros H. unfold or_else. apply string_eqb_empty in H. now rewrite H. Qed.

(** When the model returns a text that is not blank, both routes answer 200
    with that text trimmed, after one call. *)
Theorem model_text_is_returned_trimmed (log : list string) (t : string) :
  strip t <> "" ->
  (forall (req : request) (d : list (string * pyval)) (Q : string)
          (resp : generation),
     method req = "POST" -> path req = "/api/ask" ->
     json_body req = Some (PDict d) ->
     dict_lookup "question" d = Some (PStr Q) -> strip Q <> "" ->
     generate_content log (answer_prompt (strip Q)) = inr resp ->
     text resp = AttrValue (PStr t) ->
     dispatch req log
     = (Replied (mkResponse 200 (PDict [("answer", PStr (strip t))])),
        log ++ [answer_prompt (strip Q)]))
  /\
  (forall (req : request) (d : list (string * pyval)) (qa : list pyval)
          (prompt : string) (resp : generation),
     method req = "POST" -> path req = "/api/summarize" ->
     json_body req = Some (PDict d) ->
     dict_lookup "qa" d = Some (PList qa) -> qa <> [] ->
     summary_prompt qa = inr prompt ->
     generate_content log prompt = inr resp ->
     text resp = AttrValue (PStr t) ->
     dispatch req log
     = (Replied (mkResponse 200 (PDict [("summary", PStr (strip t))])),
        log ++ [prompt])).
Proof.
  intros Ht. split.
  - intros req d Q resp Hm Hp Hbody Hq HQ Hup Htext.
    rewrite (dispatch_view req _ log (view_of_ask req Hm Hp)).
    pose proof (question_of_object req d Hbody) as Hget. rewrite Hq in Hget.
    rewrite (ask_with_question req Q log Hget HQ). cbv zeta. rewrite Hup.
    rewrite (stripped_text_of_string resp t Htext).
    now rewrite (or_else_non_empty _ _ Ht).
  - intros req d qa prompt resp Hm Hp Hbody Hq Hne Hprompt Hup Htext.
    rewrite (dispatch_view req _ log (view_of_summarize req Hm Hp)).
    pose proof (qa_of_object req d Hbody) as Hget. rewrite Hq in Hget.
    destruct qa as [|item rest]; [congruence|].
    rewrite (summarize_with_list req item rest log Hget).
    rewrite Hprompt, Hup, (stripped_text_of_string resp t Htext).
    now rewrite (or_else_non_empty _ _ Ht).
Qed.

(** Reading [text] can fail.  An [AttributeError] raised by the property is
    swallowed by the default of [getattr], so [generate_markdown_answer]
    returns its fallback; any other exception of the property, and a
    [text] that is truthy but not a string (it has no [strip]), leave the
    helper as exceptions, after the call has been made. *)
Theorem answer_when_text_is_unreadable
  (question : string) (log : list string) (resp : generation) :
  generate_content log (answer_prompt question) = inr resp ->
  (forall e, text resp = AttrRaises e -> is_attribute_error e = true ->
     generate_markdown_answer question log
     = (inr "Não consegui gerar resposta.", log ++ [answer_prompt question]))
  /\ (forall e, text resp = AttrRaises e -> is_attribute_error e = false ->
        generate_markdown_answer question log
        = (inl e, log ++ [answer_prompt question]))
  /\ (forall v, text resp = AttrValue v ->
        truthy v = true -> isinstance_str v = false ->
        generate_markdown_answer question log
        = (inl (no_attribute v "strip"), log ++ [answer_prompt question])).
Proof.
  intros Hup. rewrite generate_markdown_answer_eq. cbv zeta. rewrite Hup.
  unfold stripped_text, getattr_text. split; [|split].
  - intros e -> ->. reflexivity.
  - intros e -> ->. reflexivity.
  - intros v -> Hv Hs. unfold py_or. rewrite Hv. now destruct v.
Qed.

(** The same for [summarize_markdown], with its own fallback. *)
Theorem summary_when_text_is_unreadable
  (qa : list pyval) (prompt : string) (log : list string)
  (resp : generation) :
  summary_prompt qa = inr prompt ->
  generate_content log prompt = inr resp ->
  (forall e, text resp = AttrRaises e -> is_attribute_error e = true ->
     summarize_markdown qa log
     = (inr "Não foi possível gerar o resumo.", log ++ [prompt]))
  /\ (forall e, text resp = AttrRaises e -> is_attribute_error e = false ->
        summarize_markdown qa log = (inl e, log ++ [prompt]))
  /\ (forall v, text resp = AttrValue v ->
        truthy v = true -> isinstance_str v = false ->
        summarize_markdown qa log
        = (inl (no_attribute v "strip"), log ++ [prompt])).
Proof.
  intros Hp Hup. rewrite (summarize_markdown_eq qa prompt log Hp), Hup.
  unfold stripped_text, getattr_text. split; [|split].
  - intros e -> ->. reflexivity.
  - intros e -> ->. reflexivity.
  - intros v -> Hv Hs. unfold py_or. rewrite Hv. now destruct v.
Qed.

(** Once the question has passed validation, [/api/ask] always answers
    itself, whatever the model does: it calls the model once and replies
    either 200 with an answer that is not blank or 500 with
    "Erro ao gerar resposta: " and the text of an exception. *)
Theorem ask_validated_always_replies
  (req : request) (d : list (string * pyval)) (Q : string)
  (log : list string) :
  method req = "POST" -> path req = "/api/ask" ->
  json_body req = Some (PDict d) ->
  dict_lookup "question" d = Some (PStr Q) -> strip Q <> "" ->
  exists r : response,
    dispatch req log = (Replied r, log ++ [answer_prompt (strip Q)])
    /\ ((status r = 200
         /\ exists a, payload r = PDict [("answer", PStr a)]
                      /\ strip a <> "")
        \/ (status r = 500
            /\ exists e, payload r
                         = PDict [("error",
                                   PStr ("Erro ao gerar resposta: "
                                         +:+ exn_str e))])).
Proof.
  intros Hm Hp Hbody Hq HQ.
  rewrite (dispatch_view req _ log (view_of_ask req Hm Hp)).
  pose proof (question_of_object req d Hbody) as Hget. rewrite Hq in Hget.
  rewrite (ask_with_question req Q log Hget HQ). cbv zeta.
  destruct (generate_content log (answer_prompt (strip Q))) as [e|resp].
  - eexists. split; [reflexivity|]. right. split; [reflexivity|].
    now exists e.
  - destruct (stripped_text resp) as [e|a] eqn:E.
    + eexists. split; [reflexivity|]. right. split; [reflexivity|].
      now exists e.
    + eexists. split; [reflexivity|]. left. split; [reflexivity|].
      eexists. split; [reflexivity|].
      apply or_else_not_blank.
      * exact (stripped_text_fixed resp a E).
      * exact answer_fallback_fixed.
      * discriminate.
Qed.

(** Once [qa] is a non-empty list, [/api/summarize] always answers itself:
    it calls the model at most once and replies either 200 with a summary
    that is not blank or 500 with "Erro ao gerar resumo: " and the text
    of an exception. *)
Theorem summarize_validated_always_replies
  (req : request) (d : list (string * pyval)) (qa : list pyval)
  (log : list string) :
  method req = "POST" -> path req = "/api/summarize" ->
  json_body req = Some (PDict d) ->
  dict_lookup "qa" d = Some (PList qa) -> qa <> [] ->
  exists (r : response) (log' : list string),
    dispatch req log = (Replied r, log')
    /\ (log' = log \/ exists prompt, log' = log ++ [prompt])
    /\ ((status r = 200
         /\ (exists prompt, log' = log ++ [prompt])
         /\ exists a, payload r = PDict [("summary", PStr a)]
                      /\ strip a <> "")
        \/ (status r = 500
            /\ exists e, payload r
                         = PDict [("error",
                                   PStr ("Erro ao gerar resumo: "
                                         +:+ exn_str e))])).
Proof.
  intros Hm Hp Hbody Hq Hne.
  rewrite (dispatch_view req _ log (view_of_summarize req Hm Hp)).
  pose proof (qa_of_object req d Hbody) as Hget. rewrite Hq in Hget.
  destruct qa as [|item rest]; [congruence|].
  rewrite (summarize_with_list req item rest log Hget).
  destruct (summary_prompt (item :: rest)) as [e|prompt].
  - do 2 eexists. split; [reflexivity|]. split; [now left|].
    right. split; [reflexivity|]. now exists e.
  - destruct (generate_content log prompt) as [e|resp].
    + do 2 eexists. split; [reflexivity|]. split; [right; now exists prompt|].
      right. split; [reflexivity|]. now exists e.
    + destruct (stripped_text resp) as [e|a] eqn:E.
      * do 2 eexists. split; [reflexivity|].
        split; [right; now exists prompt|].
        right. split; [reflexivity|]. now exists e.
      * do 2 eexists. split; [reflexivity|].
        split; [right; now exists prompt|].
        left. split; [reflexivity|]. split; [now exists prompt|].
        eexists. split; [reflexivity|].
        apply or_else_not_blank.
        -- exact (stripped_text_fixed resp a E).
        -- exact summary_fallback_fixed.
        -- discriminate.
Qed.

(** ** Calls to the model, request by request *)

Lemma append_items_extends (qa : list pyval) :
  forall (i : Z) (linhas out : list string),
    append_items builtin_repr i qa linhas = inr out ->
    exists items, out = linhas ++ items.
Proof.
  induction qa as [|item qa IH]; intros i linhas out; cbn [append_items].
  - intros [= <-]. exists []. now rewrite app_nil_r.
  - destruct (py_get (py_or item (PDict [])) "q" (PStr "")) as [e|q];
      [discriminate|].
    destruct (py_get (py_or item (PDict [])) "a" (PStr "")) as [e|a];
      [discriminate|].
    intros H. destruct (IH _ _ _ H) as (items & ->).
    eexists. now rewrite <- app_assoc.
Qed.

Lemma summary_prompt_prefix (qa : list pyval) (prompt : string) :
  summary_prompt qa = inr prompt ->
  exists rest, prompt = String.concat nl SUMMARY_INSTRUCTIONS +:+ rest.
Proof.
  unfold Api.summary_prompt.
  destruct (append_items builtin_repr 1 qa SUMMARY_INSTRUCTIONS)
    as [e|out] eqn:E; [discriminate|].
  intros [= <-]. destruct (append_items_extends qa _ _ _ E) as (items & ->).
  apply concat_app_prefix. discriminate.
Qed.

(** The three outcomes of [ask]. *)
Lemma ask_cases (req : request) (log : list string) :
  (exists e, ask req log = (inl e, log))
  \/ (exists r, ask req log = (inr r, log) /\ status r = 400)
  \/ (exists r q,
        ask req log = (inr r, log ++ [ANSWER_INSTRUCTIONS +:+ q])
        /\ (status r = 200 \/ status r = 500)).
Proof.
  unfold Api.ask, bind, lift, raise, ret.
  destruct (py_get _ "question" PNone) as [e|v]; [left; now exists e|].
  destruct (py_strip (py_or v (PStr ""))) as [e|q]; [left; now exists e|].
  destruct (String.eqb q ""); [right; left; eexists; now split|].
  right. right. unfold try_except, bind.
  rewrite generate_markdown_answer_eq. cbv zeta. unfold answer_prompt.
  destruct (generate_content log (ANSWER_INSTRUCTIONS +:+ q)) as [e|resp].
  - do 2 eexists. split; [reflexivity | now right].
  - destruct (stripped_text resp) as [e|a].
    + do 2 eexists. split; [reflexivity | now right].
    + do 2 eexists. split; [reflexivity | now left].
Qed.

(** The outcomes of [summarize]. *)
Lemma summarize_cases (req : request) (log : list string) :
  (exists e, summarize req log = (inl e, log))
  \/ (exists r, summarize req log = (inr r, log)
                /\ (status r = 400 \/ status r = 500))
  \/ (exists r rest,
        summarize req log
        = (inr r, log ++ [String.concat nl SUMMARY_INSTRUCTIONS +:+ rest])
        /\ (status r = 200 \/ status r = 500)).
Proof.
  unfold Api.summarize, bind, lift, raise, ret.
  destruct (py_get _ "qa" PNone) as [e|v]; [left; now exists e|].
  destruct (negb (truthy v) || negb (isinstance_list v));
    [right; left; eexists; split; [reflexivity | now left]|].
  right. unfold try_except, bind.
  destruct (summary_prompt (list_items v)) as [e|prompt] eqn:Ep.
  - left. unfold Api.summarize_markdown, bind, lift, raise. rewrite Ep.
    eexists. split; [reflexivity | now right].
  - rewrite (summarize_markdown_eq _ prompt log Ep).
    destruct (summary_prompt_prefix _ _ Ep) as (rest & ->). right.
    destruct (generate_content log _) as [e|resp].
    + do 2 eexists. split; [reflexivity | now right].
    + destruct (stripped_text resp) as [e|a].
      * do 2 eexists. split; [reflexivity | now right].
      * do 2 eexists. split; [reflexivity | now left].
Qed.

(** A request never alters the prompts sent before it and sends at most
    one prompt itself; that prompt begins with the fixed instructions of
    [generate_markdown_answer] or of [summarize_markdown], whatever the
    request contains. *)
Theorem each_request_sends_at_most_one_prompt
  (req : request) (log : list string) :
  snd (dispatch req log) = log
  \/ exists rest,
       snd (dispatch req log) = log ++ [ANSWER_INSTRUCTIONS +:+ rest]
       \/ snd (dispatch req log)
          = log ++ [String.concat nl SUMMARY_INSTRUCTIONS +:+ rest].
Proof.
  unfold Api.dispatch, view_of.
  destruct (String.eqb (path req) "/api/health"
            && String.eqb (method req) "GET"); [now left|].
  destruct (String.eqb (path req) "/api/ask"
            && String.eqb (method req) "POST").
  { destruct (ask_cases req log)
      as [(e & ->) | [(r & -> & _) | (r & q & -> & _)]];
      [now left | now left | right; exists q; now left]. }
  destruct (String.eqb (path req) "/api/summarize"
            && String.eqb (method req) "POST"); [|now left].
  destruct (summarize_cases req log)
    as [(e & ->) | [(r & -> & _) | (r & rest & -> & _)]];
    [now left | now left | right; exists rest; now right].
Qed.

(** The model is called only by a POST to [/api/ask] or [/api/summarize]. *)
Theorem only_posts_to_the_api_call_the_model
  (req : request) (log : list string) :
  snd (dispatch req log) <> log ->
  method req = "POST"
  /\ (path req = "/api/ask" \/ path req = "/api/summarize").
Proof.
  unfold Api.dispatch, view_of.
  destruct (String.eqb (path req) "/api/health"
            && String.eqb (method req) "GET"); [now intros []|].
  destruct (String.eqb (path req) "/api/ask"
            && String.eqb (method req) "POST") eqn:E1.
  { apply andb_true_iff in E1 as [Hp Hm].
    apply String.eqb_eq in Hp, Hm. intros _. split; [exact Hm | now left]. }
  destruct (String.eqb (path req) "/api/summarize"
            && String.eqb (method req) "POST") eqn:E2; [|now intros []].
  apply andb_true_iff in E2 as [Hp Hm].
  apply String.eqb_eq in Hp, Hm. intros _. split; [exact Hm | now right].
Qed.

(** The status of a reply tells what happened to the model: a view only
    answers 200, 400 or 500; a 400 means the model was not called; a 200
    from [/api/ask] or [/api/summarize] means it was called exactly once. *)
Theorem reply_status_tells_the_calls
  (req : request) (log log' : list string) (r : response) :
  dispatch req log = (Replied r, log') ->
  (status r = 200 \/ status r = 400 \/ status r = 500)
  /\ (status r = 400 -> log' = log)
  /\ (status r = 200 -> path req <> "/api/health" ->
      exists prompt, log' = log ++ [prompt]).
Proof.
  unfold Api.dispatch, view_of.
  destruct (String.eqb (path req) "/api/health"
            && String.eqb (method req) "GET") eqn:E0.
  { apply andb_true_iff in E0 as [Hp _]. apply String.eqb_eq in Hp.
    intros [= <- <-]. split; [now left|]. split; [discriminate|].
    intros _ H. now destruct H. }
  destruct (String.eqb (path req) "/api/ask"
            && String.eqb (method req) "POST").
  { destruct (ask_cases req log)
      as [(e & ->) | [(r0 & -> & Hs) | (r0 & q & -> & Hs)]];
      [discriminate | |]; intros [= <- <-].
    - split; [right; now left|]. split; [reflexivity|].
      intros H. rewrite Hs in H. discriminate.
    - split; [destruct Hs; [now left | right; now right]|].
      split; [|intros _ _; now eexists].
      intros H. destruct Hs as [Hs|Hs]; rewrite Hs in H; discriminate. }
  destruct (String.eqb (path req) "/api/summarize"
            && String.eqb (method req) "POST"); [|discriminate].
  destruct (summarize_cases req log)
    as [(e & ->) | [(r0 & -> & Hs) | (r0 & rest & -> & Hs)]];
    [discriminate | |]; intros [= <- <-].
  - split; [destruct Hs; [right; now left | right; now right]|].
    split; [reflexivity|].
    intros H. destruct Hs as [Hs|Hs]; rewrite Hs in H; discriminate.
  - split; [destruct Hs; [now left | right; now right]|].
    split; [|intros _ _; now eexists].
    intros H. destruct Hs as [Hs|Hs]; rewrite Hs in H; discriminate.
Qed.

Lemma dispatch_log_grows (req : request) (log : list string) :
  snd (dispatch req log) = log
  \/ exists prompt, snd (dispatch req log) = log ++ [prompt].
Proof.
  unfold Api.dispatch.
  destruct (view_of generate_content builtin_repr req) as [view|] eqn:Ev;
    [|now left].
  unfold view_of in Ev.
  destruct (String.eqb (path req) "/api/health"
            && String.eqb (method req) "GET");
    [injection Ev as <-; now left|].
  destruct (String.eqb (path req) "/api/ask"
            && String.eqb (method req) "POST").
  { injection Ev as <-.
    destruct (ask_cases req log)
      as [(e & ->) | [(r & -> & _) | (r & q & -> & _)]];
      [now left | now left | right; now eexists]. }
  destruct (String.eqb (path req) "/api/summarize"
            && String.eqb (method req) "POST"); [|discriminate].
  injection Ev as <-.
  destruct (summarize_cases req log)
    as [(e & ->) | [(r & -> & _) | (r & rest & -> & _)]];
    [now left | now left | right; now eexists].
Qed.

(** Serving a sequence of requests: the prompts already sent stay as they
    are, at most one prompt is added per request, and serving [reqs] then
    [later] is serving [later] from the log that [reqs] left. *)
Theorem serve_sends_at_most_one_prompt_per_request
  (reqs later : list request) (log : list string) :
  (exists prompts,
     snd (serve reqs log) = log ++ prompts
     /\ (length prompts <= length reqs)%nat)
  /\ serve (reqs ++ later) log
     = (fst (serve reqs log) ++ fst (serve later (snd (serve reqs log))),
        snd (serve later (snd (serve reqs log)))).
Proof.
  split.
  - revert log. induction reqs as [|req reqs IH]; intros log.
    + exists []. simpl. now rewrite app_nil_r.
    + cbn [Api.serve].
      destruct (dispatch req log) as [r log1] eqn:E.
      assert (H1 : log1 = log \/ exists p, log1 = log ++ [p]).
      { pose proof (dispatch_log_grows req log) as H.
        now rewrite E in H. }
      destruct (IH log1) as (ps & Hps & Hlen).
      destruct (serve reqs log1) as [rs log2]. simpl in Hps. simpl.
      destruct H1 as [-> | (p & ->)].
      * exists ps. split; [exact Hps | lia].
      * exists (p :: ps). split; [|simpl; lia].
        rewrite Hps. now rewrite <- app_assoc.
  - revert log. induction reqs as [|req reqs IH]; intros log.
    + simpl. now destruct (serve later log).
    + cbn [app Api.serve].
      destruct (dispatch req log) as [r log1].
      rewrite IH. now destruct (serve reqs log1).
Qed.

(** ** The [.env] file and the environment *)

(** [load_dotenv(..., override=True)]: when the [.env] file defines
    [GEMINI_API_KEY], the process environment plays no part in the startup
    (so an empty value in the file aborts it even if the environment holds
    a key); when the file does not define it, the file plays no part. *)
Theorem dotenv_overrides_environment
  (dotenv environ : gmap string string) :
  (forall k, dotenv !! "GEMINI_API_KEY" = Some k ->
     startup dotenv environ
     = (if String.eqb k "" then inl missing_key_error
        else inr (mkModule (PStr k) MODEL_NAME DOMAIN_CONTEXT
                    GENERATION_CONFIG)))
  /\ (dotenv !! "GEMINI_API_KEY" = None ->
      startup dotenv environ = startup ∅ environ).
Proof.
  unfold startup, getenv, load_dotenv. split.
  - intros k Hk. rewrite (lookup_union_Some_l _ _ _ _ Hk). simpl.
    now destruct (String.eqb k "").
  - intros Hk. rewrite (lookup_union_r _ _ _ Hk).
    now rewrite (left_id_L ∅ (∪) environ).
Qed.

(** ** A body that is not an object *)

(** When the body is a truthy JSON value that is not an object (a
    non-empty array or string, a non-zero number, [true]), [data.get]
    raises at the first line after [get_json], outside the [try]: in both
    routes the [AttributeError] leaves the view and the model is not
    called. *)
Theorem non_object_body_raises
  (req : request) (v : pyval) (log : list string) :
  method req = "POST" ->
  path req = "/api/ask" \/ path req = "/api/summarize" ->
  json_body req = Some v ->
  truthy v = true -> isinstance_dict v = false ->
  dispatch req log
  = (InternalServerError
       (mkExn AttributeError
          ("'" +:+ type_name v +:+ "' object has no attribute 'get'")),
     log).
Proof.
  intros Hm Hp Hbody Hv Hd.
  assert (Hdata : forall key,
            py_get (py_or (get_json_silent req) (PDict [])) key PNone
            = inl (no_attribute v "get")).
  { intros key. unfold get_json_silent. rewrite Hbody. unfold py_or.
    rewrite Hv. now destruct v. }
  destruct Hp as [Hp|Hp].
  - rewrite (dispatch_view req _ log (view_of_ask req Hm Hp)).
    unfold Api.ask, bind, lift, raise. now rewrite Hdata.
  - rewrite (dispatch_view req _ log (view_of_summarize req Hm Hp)).
    unfold Api.summarize, bind, lift, raise. now rewrite Hdata.
Qed.

End Routes.

(** ** The theorems at concrete requests *)

Lemma ask_rejects_blank_question_witness :
  strip "   " = ""
  /\ dispatch (upstream_fixed "ok") repr_unused
       (post "/api/ask" (Some (PDict [("question", PStr "   ")]))) []
     = (Replied (bad_request "Campo 'question' é obrigatório"), []).
Proof.
  assert (H : strip "   " = "") by now vm_compute.
  split; [exact H|].
  apply (ask_rejects_missing_or_blank_question (upstream_fixed "ok")
           repr_unused _ [("question", PStr "   ")]).
  - reflexivity.
  - reflexivity.
  - reflexivity.
  - right. exists "   ". split; [reflexivity | exact H].
Defined.

Lemma summarize_rejects_non_list_witness :
  dispatch (upstream_fixed "ok") repr_unused
    (post "/api/summarize" (Some (PDict [("qa", PStr "abc")]))) []
  = (Replied (bad_request "Campo 'qa' deve ser uma lista"), []).
Proof.
  apply (summarize_rejects_missing_or_non_list (upstream_fixed "ok")
           repr_unused _ [("qa", PStr "abc")]).
  - reflexivity.
  - reflexivity.
  - reflexivity.
  - right. exists (PStr "abc"). split; reflexivity.
Defined.

(** The request of C1: the empty list is answered with 400, not accepted. *)
Lemma empty_qa_list_gets_400 :
  dispatch (upstream_fixed "ok") repr_unused
    (post "/api/summarize" (Some (PDict [("qa", PList [])]))) []
  = (Replied
       (mkResponse 400 (PDict [("error", PStr "Campo 'qa' deve ser uma lista")])),
     []).
Proof. now vm_compute. Qed.

Lemma summarize_rejects_empty_list_witness :
  dispatch (upstream_fixed "ok") repr_unused
    (post "/api/summarize" (Some (PDict [("qa", PList [])]))) []
  = (Replied (bad_request "Campo 'qa' deve ser uma lista"), [])
  /\ snd (summarize_markdown (upstream_fixed "ok") repr_unused [] [])
     = [String.concat nl SUMMARY_INSTRUCTIONS].
Proof.
  destruct (summarize_rejects_empty_list (upstream_fixed "ok") repr_unused
              (post "/api/summarize" (Some (PDict [("qa", PList [])])))
              [("qa", PList [])] [])
    as (H1 & _ & H3 & _); try reflexivity.
  split; [exact H1 | exact H3].
Defined.

(** The requests of C10: a JSON array or string as body is not treated as the
    empty object; the exception of [data.get] leaves the view. *)
Lemma non_object_body_leaves_the_view :
  dispatch (upstream_fixed "ok") repr_unused
    (post "/api/ask" (Some (PList [PInt 1]))) []
  = (InternalServerError
       (mkExn AttributeError "'list' object has no attribute 'get'"), [])
  /\ dispatch (upstream_fixed "ok") repr_unused
       (post "/api/summarize" (Some (PStr "abc"))) []
     = (InternalServerError
          (mkExn AttributeError "'str' object has no attribute 'get'"), [])
  /\ dispatch (upstream_fixed "ok") repr_unused
       (post "/api/ask" (Some (PList [PInt 1]))) []
     <> dispatch (upstream_fixed "ok") repr_unused
          (post "/api/ask" (Some (PDict []))) [].
Proof. split; [|split]; now vm_compute. Qed.

Lemma falsy_body_is_empty_object_witness :
  dispatch (upstream_fixed "ok") repr_unused
    (post "/api/ask" (Some (PList []))) []
  = (Replied (bad_request "Campo 'question' é obrigatório"), [])
  /\ dispatch (upstream_fixed "ok") repr_unused
       (post "/api/summarize" None) []
     = (Replied (bad_request "Campo 'qa' deve ser uma lista"), []).
Proof.
  split.
  - apply (unreadable_or_falsy_body_is_empty_object (upstream_fixed "ok")
             repr_unused (post "/api/ask" (Some (PList []))) []).
    + reflexivity.
    + right. exists (PList []). split; reflexivity.
    + reflexivity.
  - apply (unreadable_or_falsy_body_is_empty_object (upstream_fixed "ok")
             repr_unused (post "/api/summarize" None) []).
    + reflexivity.
    + left. reflexivity.
    + reflexivity.
Defined.

Lemma health_always_ok_witness :
  dispatch (upstream_down (mkExn (OtherException "ServiceUnavailable") "503"))
    repr_unused (mkRequest "GET" "/api/health" None) ["an earlier prompt"]
  = (Replied (mkResponse 200 (PDict [("ok", PBool true)])),
     ["an earlier prompt"]).
Proof.
  apply (health_always_ok
           (upstream_down (mkExn (OtherException "ServiceUnavailable") "503"))
           repr_unused (mkRequest "GET" "/api/health" None)
           ["an earlier prompt"]); reflexivity.
Defined.

(** The request of C3: a question with a trailing space is not in the
    prompt as it was sent. *)
Lemma untrimmed_question_not_in_prompt :
  strip "O que é LINQ? " <> ""
  /\ snd (dispatch (upstream_fixed "ok") repr_unused
            (post "/api/ask"
               (Some (PDict [("question", PStr "O que é LINQ? ")]))) [])
     = [ANSWER_INSTRUCTIONS +:+ "O que é LINQ?"]
  /\ ~ contains "O que é LINQ? " (ANSWER_INSTRUCTIONS +:+ "O que é LINQ?").
Proof.
  split; [now vm_compute|]. split; [now vm_compute|].
  rewrite <- containsb_spec. now vm_compute.
Qed.

Lemma ask_sends_trimmed_question_witness :
  snd (dispatch (upstream_fixed "ok") repr_unused
         (post "/api/ask"
            (Some (PDict [("question", PStr " O que é LINQ? ")]))) [])
  = [] ++ [ANSWER_INSTRUCTIONS +:+ strip " O que é LINQ? "]
  /\ contains (strip " O que é LINQ? ")
       (ANSWER_INSTRUCTIONS +:+ strip " O que é LINQ? ").
Proof.
  destruct (ask_sends_trimmed_question (upstream_fixed "ok") repr_unused
              (post "/api/ask"
                 (Some (PDict [("question", PStr " O que é LINQ? ")])))
              [("question", PStr " O que é LINQ? ")] " O que é LINQ? " [])
    as (H1 & _ & H3 & _); try reflexivity.
  - now vm_compute.
  - split; [exact H1 | exact H3].
Defined.

Lemma upstream_failure_gives_500_witness :
  dispatch (upstream_down (mkExn (OtherException "ResourceExhausted") "429"))
    repr_unused
    (post "/api/ask" (Some (PDict [("question", PStr "O que é LINQ?")]))) []
  = (Replied (server_error ("Erro ao gerar resposta: " +:+ "429")),
     [] ++ [answer_prompt (strip "O que é LINQ?")])
  /\ fst (dispatch
            (upstream_down (mkExn (OtherException "ResourceExhausted") "429"))
            repr_unused
            (post "/api/summarize"
               (Some (PDict [("qa", PList [PDict [("q", PStr "Q");
                                                  ("a", PStr "A")]])]))) [])
     = Replied (server_error ("Erro ao gerar resumo: " +:+ "429")).
Proof.
  pose proof (upstream_failure_gives_500
                (upstream_down
                   (mkExn (OtherException "ResourceExhausted") "429"))
                repr_unused [] 
                (mkExn (OtherException "ResourceExhausted") "429") [])
    as [Hask Hsum].
  split.
  - apply (Hask _ [("question", PStr "O que é LINQ?")] "O que é LINQ?");
      try reflexivity.
    now vm_compute.
  - destruct (Hsum (post "/api/summarize"
                      (Some (PDict [("qa", PList [PDict [("q", PStr "Q");
                                                         ("a", PStr "A")]])])))
                [("qa", PList [PDict [("q", PStr "Q"); ("a", PStr "A")]])]
                [PDict [("q", PStr "Q"); ("a", PStr "A")]]
                (String.concat nl
                   (SUMMARY_INSTRUCTIONS
                    ++ ["- Pergunta 1: Q"; "- Resposta 1: A"])))
      as [H _]; [reflexivity | reflexivity | reflexivity | reflexivity
                | discriminate | reflexivity | reflexivity |].
    now rewrite H.
Defined.

Lemma helper_text_never_blank_witness :
  generate_markdown_answer (upstream_fixed "   ") "O que é LINQ?" []
  = (inr "Não consegui gerar resposta.",
     [] ++ [answer_prompt "O que é LINQ?"])
  /\ summarize_markdown (upstream_fixed "") repr_unused [] []
     = (inr "Não foi possível gerar o resumo.",
        [] ++ [String.concat nl SUMMARY_INSTRUCTIONS])
  /\ "ok" <> "" /\ strip "ok" <> "".
Proof.
  split; [|split].
  - destruct (helper_text_never_blank (upstream_fixed "   ") repr_unused
                "O que é LINQ?" [] []) as (_ & _ & H & _).
    apply (H (mkGeneration (AttrValue (PStr "   ")))); [reflexivity|].
    right. right. exists "   ". split; [reflexivity | now vm_compute].
  - destruct (helper_text_never_blank (upstream_fixed "") repr_unused
                "O que é LINQ?" [] []) as (_ & _ & _ & H & _).
    apply (H _ (mkGeneration (AttrValue (PStr "")))); [reflexivity.. |].
    right. right. exists "". split; [reflexivity | now vm_compute].
  - destruct (helper_text_never_blank (upstream_fixed " ok ") repr_unused
                "O que é LINQ?" [] []) as (H & _).
    apply (H "ok" ([] ++ [answer_prompt "O que é LINQ?"])).
    now vm_compute.
Defined.

Lemma summary_prompt_enumerates_pairs_witness :
  exists items : list string,
    summary_prompt repr_unused
      [PDict [("q", PStr "O que é LINQ?"); ("a", PStr "Consultas.")];
       PDict [("a", PStr "Sim."); ("q", PStr "E async?"); ("n", PInt 2)]]
    = inr (String.concat nl (SUMMARY_INSTRUCTIONS ++ items))
    /\ length items = 4%nat
    /\ items !! 2%nat = Some "- Pergunta 2: E async?"
    /\ items !! 3%nat = Some "- Resposta 2: Sim.".
Proof.
  destruct (summary_prompt_enumerates_pairs (upstream_fixed "ok") repr_unused
              [PDict [("q", PStr "O que é LINQ?"); ("a", PStr "Consultas.")];
               PDict [("a", PStr "Sim."); ("q", PStr "E async?");
                      ("n", PInt 2)]]
              [("O que é LINQ?", "Consultas."); ("E async?", "Sim.")] [])
    as (items & Hp & _ & Hlen & Hnth & _).
  - repeat constructor; eexists; (split; [reflexivity|split; reflexivity]).
  - exists items. split; [exact Hp|]. split; [exact Hlen|].
    exact (Hnth 1%nat "E async?" "Sim." eq_refl).
Defined.

Lemma startup_needs_api_key_witness :
  run (upstream_fixed "ok") repr_unused ∅ ∅
    [mkRequest "GET" "/api/health" None] []
  = (Aborted missing_key_error, [])
  /\ run (upstream_fixed "ok") repr_unused {["GEMINI_API_KEY" := ""]}
       {["GEMINI_API_KEY" := "abc"]} [mkRequest "GET" "/api/health" None] []
     = (Aborted missing_key_error, [])
  /\ fst (run (upstream_fixed "ok") repr_unused ∅
            {["GEMINI_API_KEY" := "abc"]}
            [mkRequest "GET" "/api/health" None] [])
     = Served [Replied (mkResponse 200 (PDict [("ok", PBool true)]))].
Proof.
  split; [|split].
  - apply (startup_needs_api_key (upstream_fixed "ok") repr_unused ∅ ∅).
    left. reflexivity.
  - apply (startup_needs_api_key (upstream_fixed "ok") repr_unused
             {["GEMINI_API_KEY" := ""]} {["GEMINI_API_KEY" := "abc"]}).
    right. now vm_compute.
  - destruct (startup_needs_api_key (upstream_fixed "ok") repr_unused ∅
                {["GEMINI_API_KEY" := "abc"]}
                [mkRequest "GET" "/api/health" None] []) as [_ H].
    destruct (H "abc") as [_ Hrun]; [now vm_compute | discriminate |].
    now rewrite Hrun.
Defined.

(** ** The further theorems at concrete requests *)

Lemma ask_400_iff_unusable_question_witness :
  dispatch (upstream_fixed "ok") repr_unused
    (post "/api/ask" (Some (PDict [("question", PInt 0)]))) []
  = (Replied (bad_request "Campo 'question' é obrigatório"), []).
Proof.
  apply (ask_400_iff_unusable_question (upstream_fixed "ok") repr_unused
           (post "/api/ask" (Some (PDict [("question", PInt 0)])))
           [("question", PInt 0)] []); try reflexivity.
  right. exists (PInt 0). split; [reflexivity | now left].
Defined.

Lemma ask_non_string_question_raises_witness :
  dispatch (upstream_fixed "ok") repr_unused
    (post "/api/ask" (Some (PDict [("question", PInt 5)]))) []
  = (InternalServerError
       (mkExn AttributeError
          ("'" +:+ type_name (PInt 5) +:+ "' object has no attribute 'strip'")),
     []).
Proof.
  apply (ask_non_string_question_raises (upstream_fixed "ok") repr_unused
           (post "/api/ask" (Some (PDict [("question", PInt 5)])))
           [("question", PInt 5)] (PInt 5) []); reflexivity.
Defined.

Lemma ask_ignores_surrounding_whitespace_witness :
  dispatch (upstream_fixed "ok") repr_unused
    (post "/api/ask" (Some (PDict [("question", PStr "  LINQ?  ")]))) []
  = dispatch (upstream_fixed "ok") repr_unused
      (post "/api/ask" (Some (PDict [("question", PStr "LINQ?")]))) [].
Proof.
  apply (ask_ignores_surrounding_whitespace (upstream_fixed "ok") repr_unused
           _ _ [("question", PStr "  LINQ?  ")] [("question", PStr "LINQ?")]
           "  LINQ?  " []); reflexivity.
Defined.

Lemma summarize_400_iff_no_usable_list_witness :
  dispatch (upstream_fixed "ok") repr_unused
    (post "/api/summarize" (Some (PDict [("qa", PDict [("q", PStr "x")])]))) []
  = (Replied (bad_request "Campo 'qa' deve ser uma lista"), []).
Proof.
  apply (summarize_400_iff_no_usable_list (upstream_fixed "ok") repr_unused
           (post "/api/summarize"
              (Some (PDict [("qa", PDict [("q", PStr "x")])])))
           [("qa", PDict [("q", PStr "x")])] []); try reflexivity.
  right. exists (PDict [("q", PStr "x")]). split; [reflexivity | now right].
Defined.

Lemma summary_prompt_of_any_objects_witness :
  exists items : list string,
    summary_prompt repr_unused
      [PDict [("q", PNone)]; PNone; PDict [("q", PInt 7); ("a", PBool true)]]
    = inr (String.concat nl (SUMMARY_INSTRUCTIONS ++ items))
    /\ length items = 6%nat
    /\ items !! 0%nat = Some "- Pergunta 1: None"
    /\ items !! 1%nat = Some "- Resposta 1: "
    /\ items !! 2%nat = Some "- Pergunta 2: "
    /\ items !! 4%nat = Some "- Pergunta 3: 7"
    /\ items !! 5%nat = Some "- Resposta 3: True".
Proof.
  destruct (summary_prompt_of_any_objects (upstream_fixed "ok") repr_unused
              [PDict [("q", PNone)]; PNone;
               PDict [("q", PInt 7); ("a", PBool true)]] [])
    as (items & Hp & _ & Hlen & Hnth).
  - repeat constructor; (now left) || (now right).
  - exists items. split; [exact Hp|]. split; [exact Hlen|].
    destruct (Hnth 0%nat _ eq_refl) as [H0 H1].
    destruct (Hnth 1%nat _ eq_refl) as [H2 _].
    destruct (Hnth 2%nat _ eq_refl) as [H4 H5].
    repeat split; assumption.
Defined.

Lemma summarize_item_without_get_gives_500_witness :
  dispatch (upstream_fixed "ok") repr_unused
    (post "/api/summarize"
       (Some (PDict [("qa", PList [PDict [("q", PStr "x")]; PStr "y"])]))) []
  = (Replied
       (server_error
          ("Erro ao gerar resumo: " +:+ "'" +:+ type_name (PStr "y")
           +:+ "' object has no attribute 'get'")),
     []).
Proof.
  apply (summarize_item_without_get_gives_500 (upstream_fixed "ok")
           repr_unused
           (post "/api/summarize"
              (Some (PDict [("qa", PList [PDict [("q", PStr "x")];
                                          PStr "y"])])))
           [("qa", PList [PDict [("q", PStr "x")]; PStr "y"])]
           [PDict [("q", PStr "x")]] [] (PStr "y") []); try reflexivity.
  repeat constructor.
Defined.

Lemma model_text_is_returned_trimmed_witness :
  dispatch (upstream_fixed " ## LINQ ") repr_unused
    (post "/api/ask" (Some (PDict [("question", PStr "LINQ?")]))) []
  = (Replied (mkResponse 200 (PDict [("answer", PStr (strip " ## LINQ "))])),
     [] ++ [answer_prompt (strip "LINQ?")]).
Proof.
  assert (H : strip " ## LINQ " <> "") by now vm_compute.
  destruct (model_text_is_returned_trimmed (upstream_fixed " ## LINQ ")
              repr_unused [] " ## LINQ " H) as [Hask _].
  apply (Hask _ [("question", PStr "LINQ?")] "LINQ?"
           (mkGeneration (AttrValue (PStr " ## LINQ "))));
    try reflexivity.
  now vm_compute.
Defined.

Lemma answer_when_text_is_unreadable_witness :
  generate_markdown_answer
    (upstream_returns
       (mkGeneration
          (AttrRaises (mkExn (OtherException "ValueError") "blocked"))))
    "LINQ?" []
  = (inl (mkExn (OtherException "ValueError") "blocked"),
     [] ++ [answer_prompt "LINQ?"])
  /\ generate_markdown_answer
       (upstream_returns (mkGeneration (AttrValue (PInt 5)))) "LINQ?" []
     = (inl (no_attribute (PInt 5) "strip"), [] ++ [answer_prompt "LINQ?"]).
Proof.
  split.
  - destruct (answer_when_text_is_unreadable
                (upstream_returns
                   (mkGeneration
                      (AttrRaises
                         (mkExn (OtherException "ValueError") "blocked"))))
                "LINQ?" [] _ eq_refl) as (_ & H & _).
    apply H; reflexivity.
  - destruct (answer_when_text_is_unreadable
                (upstream_returns (mkGeneration (AttrValue (PInt 5))))
                "LINQ?" [] _ eq_refl) as (_ & _ & H).
    apply H; reflexivity.
Defined.

Lemma summary_when_text_is_unreadable_witness :
  summarize_markdown
    (upstream_returns
       (mkGeneration (AttrRaises (mkExn AttributeError "no text"))))
    repr_unused [] []
  = (inr "Não foi possível gerar o resumo.",
     [] ++ [String.concat nl SUMMARY_INSTRUCTIONS]).
Proof.
  destruct (summary_when_text_is_unreadable
              (upstream_returns
                 (mkGeneration (AttrRaises (mkExn AttributeError "no text"))))
              repr_unused [] (String.concat nl SUMMARY_INSTRUCTIONS) [] _
              eq_refl eq_refl) as (H & _).
  apply (H (mkExn AttributeError "no text")); reflexivity.
Defined.

Lemma ask_validated_always_replies_witness :
  exists r : response,
    dispatch (upstream_down (mkExn (OtherException "Timeout") "504"))
      repr_unused
      (post "/api/ask" (Some (PDict [("question", PStr "LINQ?")]))) []
    = (Replied r, [] ++ [answer_prompt (strip "LINQ?")])
    /\ (status r = 200 \/ status r = 500).
Proof.
  destruct (ask_validated_always_replies
              (upstream_down (mkExn (OtherException "Timeout") "504"))
              repr_unused
              (post "/api/ask" (Some (PDict [("question", PStr "LINQ?")])))
              [("question", PStr "LINQ?")] "LINQ?" [])
    as (r & Hr & Hs); try reflexivity.
  - now vm_compute.
  - exists r. split; [exact Hr|]. destruct Hs as [[H _] | [H _]]; auto.
Defined.

Lemma summarize_validated_always_replies_witness :
  exists (r : response) (log' : list string),
    dispatch (upstream_fixed "ok") repr_unused
      (post "/api/summarize" (Some (PDict [("qa", PList [PInt 3])]))) []
    = (Replied r, log')
    /\ (status r = 200 \/ status r = 500).
Proof.
  destruct (summarize_validated_always_replies (upstream_fixed "ok")
              repr_unused
              (post "/api/summarize" (Some (PDict [("qa", PList [PInt 3])])))
              [("qa", PList [PInt 3])] [PInt 3] [])
    as (r & log' & Hr & _ & Hs); try reflexivity.
  - discriminate.
  - exists r, log'. split; [exact Hr|].
    destruct Hs as [[H _] | [H _]]; auto.
Defined.

Lemma only_posts_to_the_api_call_the_model_witness :
  snd (dispatch (upstream_fixed "ok") repr_unused
         (post "/api/ask" (Some (PDict [("question", PStr "LINQ?")]))) [])
  <> []
  /\ "POST" = "POST"
  /\ ("/api/ask" = "/api/ask" \/ "/api/ask" = "/api/summarize").
Proof.
  assert (H : snd (dispatch (upstream_fixed "ok") repr_unused
                     (post "/api/ask"
                        (Some (PDict [("question", PStr "LINQ?")]))) [])
              <> []) by now vm_compute.
  split; [exact H|].
  exact (only_posts_to_the_api_call_the_model (upstream_fixed "ok")
           repr_unused
           (post "/api/ask" (Some (PDict [("question", PStr "LINQ?")])))
           [] H).
Defined.

Lemma reply_status_tells_the_calls_witness :
  exists prompt,
    [answer_prompt "LINQ?"] = [] ++ [prompt].
Proof.
  destruct (reply_status_tells_the_calls (upstream_fixed "ok") repr_unused
              (post "/api/ask" (Some (PDict [("question", PStr "LINQ?")])))
              [] [answer_prompt "LINQ?"]
              (mkResponse 200 (PDict [("answer", PStr "ok")])))
    as (_ & _ & H).
  - now vm_compute.
  - apply H; [reflexivity | discriminate].
Defined.

Lemma dotenv_overrides_environment_witness :
  startup {["GEMINI_API_KEY" := ""]} {["GEMINI_API_KEY" := "abc"]}
  = inl missing_key_error
  /\ startup {["OTHER" := "x"]} {["GEMINI_API_KEY" := "abc"]}
     = startup ∅ {["GEMINI_API_KEY" := "abc"]}.
Proof.
  split.
  - destruct (dotenv_overrides_environment {["GEMINI_API_KEY" := ""]}
                {["GEMINI_API_KEY" := "abc"]}) as [H _].
    exact (H "" eq_refl).
  - destruct (dotenv_overrides_environment {["OTHER" := "x"]}
                {["GEMINI_API_KEY" := "abc"]}) as [_ H].
    apply H. reflexivity.
Defined.

Lemma non_object_body_raises_witness :
  dispatch (upstream_fixed "ok") repr_unused
    (post "/api/summarize" (Some (PList [PDict [("q", PStr "x")]]))) []
  = (InternalServerError
       (mkExn AttributeError
          ("'" +:+ type_name (PList [PDict [("q", PStr "x")]])
           +:+ "' object has no attribute 'get'")),
     []).
Proof.
  apply (non_object_body_raises (upstream_fixed "ok") repr_unused
           (post "/api/summarize" (Some (PList [PDict [("q", PStr "x")]])))
           (PList [PDict [("q", PStr "x")]]) []);
    [reflexivity | now right | reflexivity..].
Defined.
